(** * Daily spending and calorie tracker: [main.py]

    A shallow embedding of the four classes of [main.py] ([Record],
    [Calculator], [CaloriesCalculator], [CashCalculator]) together with the
    parts of the Python run time they rely on: numbers ([int] and [float]),
    their textual rendering, calendar dates, [datetime.strptime] for the one
    format the program uses, and the system clock.

    Layout: the run-time models ([Py], [Datetime], the clock), the program,
    the vocabulary the properties are stated in, then the properties with
    their proofs. *)

From Stdlib Require Import ZArith List String Ascii Bool Lia SpecFloat Permutation.
From Stdlib Require Import Decimal DecimalString.
Import ListNotations.

Local Open Scope Z_scope.

(** ** Exceptions and results *)

(** The exceptions the modelled code can raise.  Messages are not kept. *)
Inductive exn : Type :=
| ValueError
| ZeroDivisionError
| OverflowError.

(** Outcome of a pure but fallible run-time operation. *)
Inductive result (A : Type) : Type :=
| Ok (a : A)
| Err (e : exn).
Arguments Ok {A} a.
Arguments Err {A} e.

Definition rbind {A B} (r : result A) (k : A -> result B) : result B :=
  match r with
  | Ok a => k a
  | Err e => Err e
  end.

Definition rmap {A B} (f : A -> B) (r : result A) : result B :=
  rbind r (fun a => Ok (f a)).

Definition is_ok {A} (r : result A) : bool :=
  match r with Ok _ => true | Err _ => false end.

(** ** Python numbers *)

Module Py.

(** *** binary64 *)

Definition prec : Z := 53.
Definition emax : Z := 1024.

Definition float := spec_float.

Definition fadd : float -> float -> float := SFadd prec emax.
Definition fsub : float -> float -> float := SFsub prec emax.
Definition fdiv : float -> float -> float := SFdiv prec emax.
Definition fopp : float -> float := SFopp.

Definition is_zero (f : float) : bool :=
  match f with S754_zero _ => true | _ => false end.

(** The double nearest to [n / d] (ties to even), for [n >= 0] and [d > 0],
    with sign [s].  This is what [strtod] does on a decimal literal and what
    [int / int] does on its operands; the result is an infinity when the
    quotient is beyond the double range. *)
Definition of_ratio (s : bool) (n d : Z) : float :=
  match n with
  | Z0 => S754_zero s
  | _ =>
      let '(q, e, l) := SFdiv_core_binary prec emax n 0 d 0 in
      binary_round_aux prec emax s q e l
  end.

(** [float(z)] on an [int]: nearest double, [OverflowError] beyond the range. *)
Definition float_of_int (z : Z) : result float :=
  match binary_normalize prec emax z 0 false with
  | S754_infinity _ => Err OverflowError
  | f => Ok f
  end.

(** *** [int] and [float] under one type *)

Inductive num : Type :=
| PInt (z : Z)
| PFloat (f : float).

(** The coercion CPython applies to an operand of a float operation
    ([CONVERT_TO_DOUBLE]). *)
Definition to_double (x : num) : result float :=
  match x with
  | PInt z => float_of_int z
  | PFloat f => Ok f
  end.

Definition float_binop (op : float -> float -> float) (x y : num) : result num :=
  rbind (to_double x) (fun a =>
  rbind (to_double y) (fun b =>
  Ok (PFloat (op a b)))).

(** [x + y] *)
Definition add (x y : num) : result num :=
  match x, y with
  | PInt a, PInt b => Ok (PInt (a + b))
  | _, _ => float_binop fadd x y
  end.

(** [x - y] *)
Definition sub (x y : num) : result num :=
  match x, y with
  | PInt a, PInt b => Ok (PInt (a - b))
  | _, _ => float_binop fsub x y
  end.

(** [-x] *)
Definition neg (x : num) : num :=
  match x with
  | PInt a => PInt (- a)
  | PFloat f => PFloat (fopp f)
  end.

(** [x / y] (true division).  [int / int] checks the divisor first and then
    rounds the exact quotient; as soon as one operand is a float both are
    converted first, then the divisor is checked. *)
Definition truediv (x y : num) : result num :=
  match x, y with
  | PInt a, PInt b =>
      if b =? 0 then Err ZeroDivisionError
      else
        let s := xorb (a <? 0) (b <? 0) in
        match of_ratio s (Z.abs a) (Z.abs b) with
        | S754_infinity _ => Err OverflowError
        | f => Ok (PFloat f)
        end
  | _, _ =>
      rbind (to_double x) (fun a =>
      rbind (to_double y) (fun b =>
      if is_zero b then Err ZeroDivisionError
      else Ok (PFloat (fdiv a b))))
  end.

(** Exact three-way comparison; [None] when a NaN is involved. *)
Definition cmp_int_float (z : Z) (f : float) : option comparison :=
  match f with
  | S754_nan => None
  | S754_infinity s => Some (if s then Gt else Lt)
  | S754_zero _ => Some (z ?= 0)
  | S754_finite s m e =>
      let v := if s then Z.neg m else Z.pos m in
      Some (if 0 <=? e then z ?= v * 2 ^ e else z * 2 ^ (- e) ?= v)
  end.

Definition compare (x y : num) : option comparison :=
  match x, y with
  | PInt a, PInt b => Some (a ?= b)
  | PFloat f, PFloat g => SFcompare f g
  | PInt a, PFloat g => cmp_int_float a g
  | PFloat f, PInt b => option_map CompOpp (cmp_int_float b f)
  end.

(** [x > y], [x == y], [x < y] *)
Definition gt (x y : num) : bool :=
  match compare x y with Some Gt => true | _ => false end.
Definition eq (x y : num) : bool :=
  match compare x y with Some Eq => true | _ => false end.
Definition lt (x y : num) : bool :=
  match compare x y with Some Lt => true | _ => false end.

(** *** Text of numbers *)

Local Open Scope string_scope.
Local Open Scope Z_scope.

(** The decimal text of an integer. *)
Definition decimal (z : Z) : string :=
  NilZero.string_of_int (Z.to_int z).

(** [str(z)] on an [int].  The interpreter refuses, with a [ValueError], to
    turn an [int] of more than [max_str_digits] digits into text (the
    default, 4300, of CPython 3.11, also in the releases of 3.7 to 3.10 made
    since September 2022).  The first test of [too_long] is a bound on the
    size in bits that spares computing [10 ^ 4300] for the numbers nowhere
    near it; the second one decides. *)
Definition max_str_digits : Z := 4300.

Definition too_long (z : Z) : bool :=
  (14283 <=? Z.log2 (Z.abs z)) && (10 ^ max_str_digits <=? Z.abs z).

Definition str_int (z : Z) : result string :=
  if too_long z then Err ValueError else Ok (decimal z).

Definition sign_text (s : bool) : string := if s then "-" else "".

Fixpoint zeros (n : nat) : string :=
  match n with
  | O => ""
  | S n' => "0" ++ zeros n'
  end.

(** The fraction [n / d * 10 ^ k], kept as numerator and denominator. *)
Definition scale10 (n d k : Z) : Z * Z :=
  if 0 <=? k then (n * 10 ^ k, d) else (n, d * 10 ^ (- k)).

(** The exact value [m * 2 ^ e] of a finite double, as a fraction. *)
Definition frac_of (m : positive) (e : Z) : Z * Z :=
  if 0 <=? e then (Z.pos m * 2 ^ e, 1) else (Z.pos m, 2 ^ (- e)).

(** [n / d] rounded to the nearest integer, ties to even. *)
Definition div_half_even (n d : Z) : Z :=
  let q := n / d in
  match 2 * (n mod d) ?= d with
  | Lt => q
  | Gt => q + 1
  | Eq => if Z.even q then q else q + 1
  end.

(** [|x| * 100] rounded to an integer: the digits both [round(x, 2)] and
    the [.2f] format keep. *)
Definition hundredths (m : positive) (e : Z) : Z :=
  let '(n, d) := frac_of m e in div_half_even (n * 100) d.

(** [round(x, 2)]: an [int] is returned as it is; a finite [float] is
    rounded to two decimals on its exact value and read back as a double. *)
Definition round2 (x : num) : num :=
  match x with
  | PInt z => PInt z
  | PFloat (S754_finite s m e) => PFloat (of_ratio s (hundredths m e) 100)
  | PFloat f => PFloat f
  end.

(** ['{:.2f}'.format(f)] on a [float] *)
Definition format_2f_float (f : float) : string :=
  match f with
  | S754_nan => "nan"
  | S754_infinity s => sign_text s ++ "inf"
  | S754_zero s => sign_text s ++ "0.00"
  | S754_finite s m e =>
      let h := hundredths m e in
      let c := h mod 100 in
      sign_text s ++ decimal (h / 100) ++ "."
        ++ (if c <? 10 then "0" else "") ++ decimal c
  end.

(** ['{:.2f}'.format(x)]: an [int] is converted to [float] first. *)
Definition format_2f (x : num) : result string :=
  rmap format_2f_float (to_double x).

(** Position of the decimal point: the [p] with [10^(p-1) <= n/d < 10^p],
    searched upwards and downwards from an estimate. *)
Definition below_pow10 (n d p : Z) : bool :=
  let '(n', d') := scale10 n d (- p) in n' <? d'.

Fixpoint decpt_up (fuel : nat) (n d p : Z) : Z :=
  match fuel with
  | O => p
  | S fuel' => if below_pow10 n d p then p else decpt_up fuel' n d (p + 1)
  end.

Fixpoint decpt_down (fuel : nat) (n d p : Z) : Z :=
  match fuel with
  | O => p
  | S fuel' =>
      if below_pow10 n d (p - 1) then decpt_down fuel' n d (p - 1) else p
  end.

Definition decpt_of (n d : Z) : Z :=
  let p0 := (Z.log2 n - Z.log2 d) * 30103 / 100000 in
  decpt_down 4 n d (decpt_up 4 n d p0).

(** Does the decimal [k * 10 ^ s] read back as the double [m * 2 ^ e]? *)
Definition reads_back (m : positive) (e : Z) (k s : Z) : bool :=
  let '(n, d) := scale10 k 1 s in
  match of_ratio false n d with
  | S754_finite _ m' e' => Pos.eqb m m' && Z.eqb e e'
  | _ => false
  end.

(** The shortest digit string that reads back as [m * 2 ^ e], the nearest
    one when there are several, tried at 1, 2, ... digits.  The result is
    the digits as an integer and the power of ten they are scaled by. *)
Fixpoint shortest_from (fuel : nat) (m : positive) (e : Z) (n d p : Z)
    (ndig : Z) : Z * Z :=
  let s := p - ndig in
  let '(n', d') := scale10 n d (- s) in
  let lo := n' / d' in
  let hi := lo + 1 in
  let near_lo :=
    match 2 * (n' mod d') ?= d' with
    | Lt => true
    | Gt => false
    | Eq => Z.even lo
    end in
  match fuel with
  | O => (if near_lo then lo else hi, s)
  | S fuel' =>
      match reads_back m e lo s, reads_back m e hi s with
      | true, true => (if near_lo then lo else hi, s)
      | true, false => (lo, s)
      | false, true => (hi, s)
      | false, false => shortest_from fuel' m e n d p (ndig + 1)
      end
  end.

Definition shortest (m : positive) (e : Z) : Z * Z :=
  let '(n, d) := frac_of m e in
  shortest_from 16 m e n d (decpt_of n d) 1.

(** Drop the trailing zeros of a digit string. *)
Fixpoint strip_zeros (fuel : nat) (k : Z) : Z :=
  match fuel with
  | O => k
  | S fuel' => if (k mod 10 =? 0) && negb (k =? 0) then strip_zeros fuel' (k / 10) else k
  end.

(** [repr(f)] of a positive finite double ('r' format, shortest digits):
    plain notation while the decimal point sits within [-3, 16], exponent
    notation outside. *)
Definition repr_pos (m : positive) (e : Z) : string :=
  let '(k, s) := shortest m e in
  let ds0 := decimal k in
  let decpt := s + Z.of_nat (String.length ds0) in
  let ds := decimal (strip_zeros 17 k) in
  let len := Z.of_nat (String.length ds) in
  if (decpt <=? -4) || (16 <? decpt) then
    let x := decpt - 1 in
    substring 0 1 ds
      ++ (if 1 <? len then "." ++ substring 1 (String.length ds - 1) ds else "")
      ++ "e" ++ (if x <? 0 then "-" else "+")
      ++ (if Z.abs x <? 10 then "0" else "") ++ decimal (Z.abs x)
  else if decpt <=? 0 then
    "0." ++ zeros (Z.to_nat (- decpt)) ++ ds
  else if decpt <? len then
    substring 0 (Z.to_nat decpt) ds ++ "."
      ++ substring (Z.to_nat decpt) (String.length ds - Z.to_nat decpt) ds
  else
    ds ++ zeros (Z.to_nat (decpt - len)) ++ ".0".

(** [repr(f)] on a [float] *)
Definition repr_float (f : float) : string :=
  match f with
  | S754_nan => "nan"
  | S754_infinity s => sign_text s ++ "inf"
  | S754_zero s => sign_text s ++ "0.0"
  | S754_finite s m e => sign_text s ++ repr_pos m e
  end.

(** [str(x)], which is also what an f-string field without a format
    specification shows. *)
Definition str (x : num) : result string :=
  match x with
  | PInt z => str_int z
  | PFloat f => Ok (repr_float f)
  end.

Local Close Scope string_scope.

End Py.

(** ** Calendar dates: the [datetime] module *)

Module Datetime.

(** [datetime.date]: a proleptic Gregorian calendar day. *)
Record date : Type := mkdate { year : Z; month : Z; day : Z }.

(** [datetime.datetime]: a day and a time of day. *)
Record datetime : Type := mkdatetime {
  date_of : date;        (* the [.date()] method *)
  hour : Z;
  minute : Z;
  second : Z;
  microsecond : Z
}.

Definition MINYEAR : Z := 1.
Definition MAXYEAR : Z := 9999.

Definition is_leap (y : Z) : bool :=
  (y mod 4 =? 0) && (negb (y mod 100 =? 0) || (y mod 400 =? 0)).

(** Number of days before January 1st of year [y]. *)
Definition days_before_year (y : Z) : Z :=
  let p := y - 1 in
  p * 365 + p / 4 - p / 100 + p / 400.

Definition days_in_month (y m : Z) : Z :=
  if (m =? 2) && is_leap y then 29
  else nth (Z.to_nat m) [-1; 31; 28; 31; 30; 31; 30; 31; 31; 30; 31; 30; 31] (-1).

(** Number of days in year [y] before the first day of month [m]. *)
Definition days_before_month (y m : Z) : Z :=
  nth (Z.to_nat m) [-1; 0; 31; 59; 90; 120; 151; 181; 212; 243; 273; 304; 334] (-1)
  + (if (2 <? m) && is_leap y then 1 else 0).

(** Ordinal of a day, January 1st of year 1 being day 1. *)
Definition ymd2ord (y m d : Z) : Z :=
  days_before_year y + days_before_month y m + d.

(** The field check the constructors run. *)
Definition valid_date (d : date) : bool :=
  (MINYEAR <=? year d) && (year d <=? MAXYEAR)
  && (1 <=? month d) && (month d <=? 12)
  && (1 <=? day d) && (day d <=? days_in_month (year d) (month d)).

(** [date(y, m, d)] and [datetime(y, m, d)]: [ValueError] on fields out of
    range. *)
Definition new_date (y m d : Z) : result date :=
  let r := mkdate y m d in
  if valid_date r then Ok r else Err ValueError.

Definition new_datetime (y m d : Z) : result datetime :=
  rmap (fun r => mkdatetime r 0 0 0 0) (new_date y m d).

Definition toordinal (d : date) : Z := ymd2ord (year d) (month d) (day d).

(** [d1 == d2] *)
Definition date_eqb (d1 d2 : date) : bool :=
  (year d1 =? year d2) && (month d1 =? month d2) && (day d1 =? day d2).

(** [d1 < d2]: the fields compared as a tuple. *)
Definition date_ltb (d1 d2 : date) : bool :=
  (year d1 <? year d2)
  || ((year d1 =? year d2)
      && ((month d1 <? month d2)
          || ((month d1 =? month d2) && (day d1 <? day d2)))).

(** [(d1 - d2).days] *)
Definition days_between (d1 d2 : date) : Z := toordinal d1 - toordinal d2.

(** *** [datetime.strptime]

    The library turns a format into a regular expression, matches it at the
    start of the text with a backtracking matcher, refuses text left over,
    converts the matched groups with [int] and calls the [datetime]
    constructor.  Every failure is a [ValueError].  Modelled here are the
    three directives the program uses.

    Text is kept as its UTF-8 bytes.  The classes of the pattern written
    with ASCII characters take one byte; the class [\d] takes a decimal
    digit of any script (general category Nd, here as of Unicode 14.0, the
    version of CPython 3.11), which [int] converts as well. *)

Definition byte (a : ascii) : Z := Z.of_N (N_of_ascii a).

(** The payload of a continuation byte [10xxxxxx]. *)
Definition continuation (a : ascii) : option Z :=
  let b := byte a in
  if (128 <=? b) && (b <? 192) then Some (b - 128) else None.

(** The code point at the start of [s], the bytes that encode it and the
    rest of [s]; nothing when [s] is empty or starts with no code point. *)
Definition next_codepoint (s : string) : option (Z * string * string) :=
  match s with
  | EmptyString => None
  | String a r =>
      let b := byte a in
      if b <? 128 then Some (b, String a EmptyString, r)
      else if (192 <=? b) && (b <? 224) then
        match r with
        | String c1 r1 =>
            match continuation c1 with
            | Some x1 => Some ((b - 192) * 64 + x1, String a (String c1 EmptyString), r1)
            | None => None
            end
        | _ => None
        end
      else if (224 <=? b) && (b <? 240) then
        match r with
        | String c1 (String c2 r2) =>
            match continuation c1, continuation c2 with
            | Some x1, Some x2 =>
                Some (((b - 224) * 64 + x1) * 64 + x2,
                      String a (String c1 (String c2 EmptyString)), r2)
            | _, _ => None
            end
        | _ => None
        end
      else if (240 <=? b) && (b <? 248) then
        match r with
        | String c1 (String c2 (String c3 r3)) =>
            match continuation c1, continuation c2, continuation c3 with
            | Some x1, Some x2, Some x3 =>
                Some ((((b - 240) * 64 + x1) * 64 + x2) * 64 + x3,
                      String a (String c1 (String c2 (String c3 EmptyString))), r3)
            | _, _, _ => None
            end
        | _ => None
        end
      else None
  end.

(** The decimal digits: each entry is the code point of a digit zero and
    the number of runs [0..9] that follow one another from it. *)
Definition decimal_blocks : list (Z * Z) :=
  [
    (48, 1); (1632, 1); (1776, 1); (1984, 1); (2406, 1); (2534, 1); (2662, 1);
    (2790, 1); (2918, 1); (3046, 1); (3174, 1); (3302, 1); (3430, 1);
    (3558, 1); (3664, 1); (3792, 1); (3872, 1); (4160, 1); (4240, 1);
    (6112, 1); (6160, 1); (6470, 1); (6608, 1); (6784, 1); (6800, 1);
    (6992, 1); (7088, 1); (7232, 1); (7248, 1); (42528, 1); (43216, 1);
    (43264, 1); (43472, 1); (43504, 1); (43600, 1); (44016, 1); (65296, 1);
    (66720, 1); (68912, 1); (69734, 1); (69872, 1); (69942, 1); (70096, 1);
    (70384, 1); (70736, 1); (70864, 1); (71248, 1); (71360, 1); (71472, 1);
    (71904, 1); (72016, 1); (72784, 1); (73040, 1); (73120, 1); (92768, 1);
    (92864, 1); (93008, 1); (120782, 5); (123200, 1); (123632, 1);
    (125264, 1); (130032, 1)
  ].

(** The value of a decimal digit, nothing for another character. *)
Definition decimal_value (cp : Z) : option Z :=
  match find (fun b => (fst b <=? cp) && (cp <? fst b + 10 * snd b)) decimal_blocks with
  | Some b => Some ((cp - fst b) mod 10)
  | None => None
  end.

Inductive directive : Type := Dir_d | Dir_m | Dir_Y.

Inductive fmt_item : Type :=
| Directive (d : directive)
| Literal (c : ascii).

(** The format ['%d.%m.%Y']. *)
Definition fmt_dmY : list fmt_item :=
  [Directive Dir_d; Literal "."; Directive Dir_m; Literal "."; Directive Dir_Y].

(** A class takes one character off the start of a text: the bytes taken
    and the rest. *)
Definition cclass : Type := string -> option (string * string).

Definition one (p : ascii -> bool) : cclass :=
  fun s =>
    match s with
    | String a r => if p a then Some (String a EmptyString, r) else None
    | EmptyString => None
    end.

Definition range (lo hi : ascii) : cclass :=
  one (fun c => (nat_of_ascii lo <=? nat_of_ascii c)%nat
                && (nat_of_ascii c <=? nat_of_ascii hi)%nat).

Definition chr (a : ascii) : cclass := one (Ascii.eqb a).

(** [\d] *)
Definition digit : cclass :=
  fun s =>
    match next_codepoint s with
    | Some (cp, txt, rest) =>
        match decimal_value cp with
        | Some _ => Some (txt, rest)
        | None => None
        end
    | None => None
    end.

(** The alternatives of each directive's group, in the library's order:
    [3[0-1]|[1-2]\d|0[1-9]|[1-9]| [1-9]], [1[0-2]|0[1-9]|[1-9]] and
    [\d\d\d\d]. *)
Definition alternatives (d : directive) : list (list cclass) :=
  match d with
  | Dir_d =>
      [[chr "3"; range "0" "1"]; [range "1" "2"; digit]; [chr "0"; range "1" "9"];
       [range "1" "9"]; [chr " "; range "1" "9"]]
  | Dir_m =>
      [[chr "1"; range "0" "2"]; [chr "0"; range "1" "9"]; [range "1" "9"]]
  | Dir_Y =>
      [[digit; digit; digit; digit]]
  end.

(** Match one character per class at the start of [s]: the matched text and
    the rest. *)
Fixpoint match_classes (cls : list cclass) (s : string) : option (string * string) :=
  match cls with
  | [] => Some (EmptyString, s)
  | c :: cls' =>
      match c s with
      | Some (t, r) =>
          match match_classes cls' r with
          | Some (txt, rest) => Some ((t ++ txt)%string, rest)
          | None => None
          end
      | None => None
      end
  end.

(** One group of the pattern: its alternatives are tried in order on [s],
    each match handing the matched text and the rest to [k], which stands
    for the remainder of the pattern; when [k] fails the next alternative is
    tried (backtracking). *)
Fixpoint try_alternatives {A : Type} (k : string -> string -> option A)
    (alts : list (list cclass)) (s : string) : option A :=
  match alts with
  | [] => None
  | alt :: alts' =>
      match match_classes alt s with
      | Some (txt, rest) =>
          match k txt rest with
          | Some r => Some r
          | None => try_alternatives k alts' s
          end
      | None => try_alternatives k alts' s
      end
  end.

(** Match a format at the start of [s]: the matched groups and the text
    left over. *)
Fixpoint match_fmt (fmt : list fmt_item) (s : string)
    : option (list (directive * string) * string) :=
  match fmt with
  | [] => Some ([], s)
  | Literal c :: fmt' =>
      match s with
      | String a s' => if Ascii.eqb c a then match_fmt fmt' s' else None
      | EmptyString => None
      end
  | Directive d :: fmt' =>
      try_alternatives
        (fun txt rest =>
           match match_fmt fmt' rest with
           | Some (groups, tl) => Some ((d, txt) :: groups, tl)
           | None => None
           end)
        (alternatives d) s
  end.

(** [int(txt)] on a matched group: decimal digits after optional blanks,
    one character per step. *)
Fixpoint int_of_text (fuel : nat) (acc : Z) (txt : string) : Z :=
  match fuel with
  | O => acc
  | S fuel' =>
      match next_codepoint txt with
      | Some (cp, _, rest) =>
          match decimal_value cp with
          | Some v => int_of_text fuel' (acc * 10 + v) rest
          | None => int_of_text fuel' acc rest
          end
      | None => acc
      end
  end.

Definition directive_eqb (a b : directive) : bool :=
  match a, b with
  | Dir_d, Dir_d | Dir_m, Dir_m | Dir_Y, Dir_Y => true
  | _, _ => false
  end.

(** The value of a directive's group, or the library's default for a
    directive the format does not have. *)
Definition group (d : directive) (default : Z)
    (groups : list (directive * string)) : Z :=
  match find (fun g => directive_eqb d (fst g)) groups with
  | Some g => int_of_text (String.length (snd g)) 0 (snd g)
  | None => default
  end.

(** [datetime.strptime(data_string, format)] *)
Definition strptime (data_string : string) (format : list fmt_item)
    : result datetime :=
  match match_fmt format data_string with
  | None => Err ValueError                       (* does not match format *)
  | Some (groups, EmptyString) =>
      new_datetime (group Dir_Y 1900 groups) (group Dir_m 1 groups)
                   (group Dir_d 1 groups)
  | Some (_, String _ _) => Err ValueError       (* unconverted data remains *)
  end.

End Datetime.

(** ** The system clock and the effects of the program

    The program reads the wall clock ([datetime.now()]) and raises
    exceptions.  A world holds the clock as the sequence of its successive
    readings and counts the readings made so far. *)

Record world : Type := mkworld {
  clock : nat -> Datetime.datetime;
  reads : nat
}.

Inductive outcome (A : Type) : Type :=
| Return (a : A) (w : world)
| Raise (e : exn) (w : world).
Arguments Return {A} a w.
Arguments Raise {A} e w.

Definition M (A : Type) : Type := world -> outcome A.

Definition ret {A} (a : A) : M A := fun w => Return a w.

Definition bind {A B} (m : M A) (k : A -> M B) : M B :=
  fun w =>
    match m w with
    | Return a w' => k a w'
    | Raise e w' => Raise e w'
    end.

(** A run-time operation inside the program: its error is raised. *)
Definition lift {A} (r : result A) : M A :=
  fun w =>
    match r with
    | Ok a => Return a w
    | Err e => Raise e w
    end.

Declare Scope py_scope.
Delimit Scope py_scope with py.
Notation "x <- m ;; k" := (bind m (fun x => k))
  (at level 61, m at next level, right associativity) : py_scope.
Notation "' p <- m ;; k" := (bind m (fun x => let p := x in k))
  (at level 61, p pattern, m at next level, right associativity) : py_scope.

(** What the caller sees: the value returned or the exception raised. *)
Definition value {A} (o : outcome A) : result A :=
  match o with
  | Return a _ => Ok a
  | Raise e _ => Err e
  end.

Definition world_after {A} (o : outcome A) : world :=
  match o with
  | Return _ w => w
  | Raise _ w => w
  end.

(** [datetime.datetime.now()] *)
Definition datetime_now : M Datetime.datetime :=
  fun w => Return (clock w (reads w)) (mkworld (clock w) (S (reads w))).

(** * The program *)

Import Datetime.
Local Open Scope string_scope.
Local Open Scope Z_scope.
Local Open Scope py_scope.

(** ** [class Record] *)

Record PyRecord : Type := mkRecord {
  amount : Py.num;
  date : Datetime.date;
  comment : string
}.

(** Truth value of a [str]: false for the empty string only. *)
Definition truthy (s : string) : bool :=
  match s with
  | EmptyString => false
  | String _ _ => true
  end.

(** [Record.__init__(self, amount, comment, date)] *)
Definition Record_init (amount : Py.num) (comment : string) (date : string)
    : M PyRecord :=
  d <- (if negb (truthy date) then
          now <- datetime_now ;; ret (date_of now)
        else
          t <- lift (strptime date fmt_dmY) ;; ret (date_of t)) ;;
  ret (mkRecord amount d comment).

(** [Record(amount, comment)] and [Record(amount, comment, date)]: the
    parameter [date] has the default ['']. *)
Definition Record_new (amount : Py.num) (comment : string)
    (date : option string) : M PyRecord :=
  Record_init amount comment (match date with Some s => s | None => "" end).

(** ** [class Calculator] *)

Record Calculator : Type := mkCalculator {
  limit : Py.num;
  records : list PyRecord
}.

(** [Calculator.__init__(self, limit)] *)
Definition Calculator_init (limit : Py.num) : Calculator :=
  mkCalculator limit [].

(** [add_record(self, record)]: [self.records.append(record)] *)
Definition add_record (self : Calculator) (record : PyRecord) : Calculator :=
  mkCalculator (limit self) (records self ++ [record]).

(** The loop of [get_today_stats]: the clock is read once per record. *)
Fixpoint today_loop (rs : list PyRecord) (today_stats : Py.num) : M Py.num :=
  match rs with
  | [] => ret today_stats
  | r :: rs' =>
      now <- datetime_now ;;
      if date_eqb (date r) (date_of now) then
        s <- lift (Py.add today_stats (amount r)) ;;
        today_loop rs' s
      else today_loop rs' today_stats
  end.

(** [get_today_stats(self)] *)
Definition get_today_stats (self : Calculator) : M Py.num :=
  today_loop (records self) (Py.PInt 0).

(** The loop of [get_week_stats], with [today] read before it. *)
Fixpoint week_loop (today : Datetime.date) (rs : list PyRecord)
    (week_stats : Py.num) : M Py.num :=
  match rs with
  | [] => ret week_stats
  | record :: rs' =>
      if (days_between today (date record) <? 7)
         && (days_between today (date record) >=? 0) then
        s <- lift (Py.add week_stats (amount record)) ;;
        week_loop today rs' s
      else week_loop today rs' week_stats
  end.

(** [get_week_stats(self)] *)
Definition get_week_stats (self : Calculator) : M Py.num :=
  now <- datetime_now ;;
  let today := date_of now in
  week_loop today (records self) (Py.PInt 0).

(** ** [class CaloriesCalculator(Calculator)] *)

(** [get_calories_remained(self)] *)
Definition get_calories_remained (self : Calculator) : M string :=
  stats <- get_today_stats self ;;
  x <- lift (Py.sub (limit self) stats) ;;
  if Py.gt x (Py.PInt 0) then
    t <- lift (Py.str x) ;;
    ret ("Сегодня можно съесть что-нибудь"
         ++ " ещё, но с общей калорийностью не более " ++ t ++ " кКал")
  else
    ret "Хватит есть!".

(** ** [class CashCalculator(Calculator)] *)

(** [USD_RATE = float(60)] and [EURO_RATE = float(70)] *)
Definition USD_RATE : Py.num := Py.PFloat (binary_normalize Py.prec Py.emax 60 0 false).
Definition EURO_RATE : Py.num := Py.PFloat (binary_normalize Py.prec Py.emax 70 0 false).

(** The literal [1.00]. *)
Definition one_float : Py.num := Py.PFloat (binary_normalize Py.prec Py.emax 1 0 false).

(** [get_today_cash_remained(self, currency, USD_RATE, EURO_RATE)].  The
    result is a [str], or [None] when no branch of the final chain is
    taken. *)
Definition get_today_cash_remained (self : Calculator) (currency : string)
    (USD_RATE EURO_RATE : Py.num) : M (option string) :=
  let currency_type := currency in
  stats <- get_today_stats self ;;
  cash_remained <- lift (Py.sub (limit self) stats) ;;
  '(cash_remained, currency_type) <-
    (if String.eqb currency "usd" then
       c <- lift (Py.truediv cash_remained USD_RATE) ;; ret (c, "USD")
     else if String.eqb currency_type "eur" then
       c <- lift (Py.truediv cash_remained EURO_RATE) ;; ret (c, "Euro")
     else if String.eqb currency_type "rub" then
       let _ := Py.eq cash_remained one_float in
       ret (cash_remained, "руб")
     else ret (cash_remained, currency_type)) ;;
  if Py.gt cash_remained (Py.PInt 0) then
    t <- lift (Py.str (Py.round2 cash_remained)) ;;
    ret (Some ("На сегодня осталось " ++ t ++ " " ++ currency_type))
  else if Py.eq cash_remained (Py.PInt 0) then
    ret (Some "Денег нет, держись")
  else if Py.lt cash_remained (Py.PInt 0) then
    s <- lift (Py.format_2f (Py.neg cash_remained)) ;;
    ret (Some ("Денег нет, держись:" ++ " твой долг - " ++ s ++ " " ++ currency_type))
  else ret None.

(** A call that leaves out [USD_RATE] or [EURO_RATE] gets the class
    attribute of the same name. *)
Definition get_today_cash_remained_call (self : Calculator) (currency : string)
    (usd_rate euro_rate : option Py.num) : M (option string) :=
  get_today_cash_remained self currency
    (match usd_rate with Some r => r | None => USD_RATE end)
    (match euro_rate with Some r => r | None => EURO_RATE end).

(** [CashCalculator.get_week_stats(self)]: [super().get_week_stats()] as a
    statement; the method returns [None]. *)
Definition CashCalculator_get_week_stats (self : Calculator) : M unit :=
  _ <- get_week_stats self ;;
  ret tt.

(** * Vocabulary of the properties

    Definitions the statements below are written with: what the
    specification calls a sum, a window, the remaining value and the
    messages, then sample data. *)

Local Open Scope list_scope.

(** ** The sum of a list of numbers

    [py_sum xs] is Python's [sum(xs)]: the numbers added from the left onto
    the integer [0], an error of an addition ending it. *)

Fixpoint py_sum_from (acc : Py.num) (xs : list Py.num) : result Py.num :=
  match xs with
  | [] => Ok acc
  | x :: xs' => rbind (Py.add acc x) (fun s => py_sum_from s xs')
  end.

Definition py_sum (xs : list Py.num) : result Py.num :=
  py_sum_from (Py.PInt 0) xs.

(** The records of the week window of [today]: dated at most six days
    before it and not after it. *)
Definition in_week (today : Datetime.date) (r : PyRecord) : bool :=
  (0 <=? days_between today (date r)) && (days_between today (date r) <? 7).

(** The records dated [today]. *)
Definition dated (today : Datetime.date) (r : PyRecord) : bool :=
  date_eqb (date r) today.

(** The records the loop of [get_today_stats] counts when the clock is
    [clk] and [n] readings were made before: each record is compared with
    the day of the reading made for it. *)
Fixpoint counted (clk : nat -> Datetime.datetime) (n : nat) (rs : list PyRecord)
    : list PyRecord :=
  match rs with
  | [] => []
  | r :: rs' =>
      if date_eqb (date r) (date_of (clk n)) then r :: counted clk (S n) rs'
      else counted clk (S n) rs'
  end.

(** The clock shows the calendar day [today] at each of the next [n]
    readings. *)
Definition clock_shows (w : world) (n : nat) (today : Datetime.date) : Prop :=
  forall i, (i < n)%nat -> date_of (clock w (reads w + i)) = today.

(** ** Date texts *)

(** The text [DD.MM.YYYY] of a date: the day and the month on two digits,
    the year on four. *)
Definition digit_char (k : Z) : ascii := ascii_of_nat (48 + Z.to_nat k).

Definition two_digits (n : Z) : string :=
  String (digit_char (n / 10)) (String (digit_char (n mod 10)) EmptyString).

Definition four_digits (n : Z) : string :=
  String (digit_char (n / 1000))
    (String (digit_char (n / 100 mod 10))
       (String (digit_char (n / 10 mod 10))
          (String (digit_char (n mod 10)) EmptyString))).

Definition text_dmY (d : Datetime.date) : string :=
  (two_digits (day d) ++ "." ++ two_digits (month d) ++ "."
   ++ four_digits (year d))%string.

(** The calendar day after [d], as [d + timedelta(days=1)] gives it, and
    the day [k] days after [d]. *)
Definition next_day (d : Datetime.date) : Datetime.date :=
  if day d <? days_in_month (year d) (month d) then
    mkdate (year d) (month d) (day d + 1)
  else if month d <? 12 then mkdate (year d) (month d + 1) 1
  else mkdate (year d + 1) 1 1.

Fixpoint days_later (k : nat) (d : Datetime.date) : Datetime.date :=
  match k with
  | O => d
  | S k' => next_day (days_later k' d)
  end.

(** The same date written without leading zeros: [D.M.YYYY]. *)
Definition text_unpadded (d : Datetime.date) : string :=
  (Py.decimal (day d) ++ "." ++ Py.decimal (month d) ++ "."
   ++ four_digits (year d))%string.

(** ** Numbers *)

(** [abs(x)] *)
Definition py_abs (x : Py.num) : Py.num :=
  match x with
  | Py.PInt a => Py.PInt (Z.abs a)
  | Py.PFloat f => Py.PFloat (SFabs f)
  end.

(** A float, or an [int] that [float()] accepts. *)
Definition in_double_range (x : Py.num) : bool := is_ok (Py.to_double x).

Definition is_nan (x : Py.num) : bool :=
  match x with
  | Py.PFloat S754_nan => true
  | _ => false
  end.

Definition zero : Py.num := Py.PInt 0.



(** ** Rounding *)

(** Is the float an infinity? *)
Definition is_infinity (f : spec_float) : bool :=
  match f with S754_infinity _ => true | _ => false end.

(** The exponent function of binary64: [fexp 53 1024]. *)
Definition fexp64 (e : Z) : Z := Z.max (e - 53) (-1074).

(** The result of rounding a positive mantissa, read off its last
    mantissa [m3] and exponent [e3]. *)
Definition assemble (s : bool) (m3 e3 : Z) : spec_float :=
  match m3 with
  | Z0 => S754_zero s
  | Zpos p => if e3 <=? 971 then S754_finite s p e3 else S754_infinity s
  | Zneg _ => S754_nan
  end.

(** ** Remaining value and messages *)

(** [limit - get_today_stats()] as the caller of the method would compute
    it in the same world. *)
Definition remaining (self : Calculator) (w : world) : result Py.num :=
  rbind (value (get_today_stats self w)) (fun stats => Py.sub (limit self) stats).

(** The message for the value [v] shown under [label], by the sign of [v]. *)
Definition cash_message (v : Py.num) (label : string) : result (option string) :=
  if Py.gt v zero then
    rmap (fun t => Some ("На сегодня осталось " ++ t ++ " " ++ label)%string)
         (Py.str (Py.round2 v))
  else if Py.eq v zero then
    Ok (Some "Денег нет, держись"%string)
  else if Py.lt v zero then
    rmap (fun s => Some ("Денег нет, держись: твой долг - " ++ s ++ " " ++ label)%string)
         (Py.format_2f (py_abs v))
  else Ok None.

(** [out] is what the method is to return for the value [v] shown under
    [label]: one of three texts by the sign of [v], the value put into text
    by [str] after [round(v, 2)] or by the [.2f] format on [abs(v)]. *)
Definition reports (out : result (option string)) (v : Py.num) (label : string)
    : Prop :=
  (Py.gt v zero = true ->
   out = rmap (fun t => Some ("На сегодня осталось " ++ t ++ " " ++ label)%string)
              (Py.str (Py.round2 v)))
  /\ (Py.eq v zero = true -> out = Ok (Some "Денег нет, держись"%string))
  /\ (Py.lt v zero = true ->
      out = rmap (fun s => Some ("Денег нет, держись: твой долг - " ++ s ++ " "
                                 ++ label)%string)
                 (Py.format_2f (py_abs v))).

(** The strings of the specification, for comparison. *)
Definition spec_no_money : string := "no money left, hang in there".

Definition spec_may_spend (shown label : string) : string :=
  ("today you may still spend up to " ++ shown ++ " " ++ label ++ ".")%string.

Definition spec_may_eat (shown : string) : string :=
  ("today you may still eat something more, but with total calories no more than "
   ++ shown ++ " kCal.")%string.

Definition spec_stop_eating : string := "stop eating!".

(** ** Amounts *)

Definition is_int (x : Py.num) : bool :=
  match x with Py.PInt _ => true | Py.PFloat _ => false end.

Definition is_float (x : Py.num) : bool := negb (is_int x).

(** The integer an [int] holds. *)
Definition int_value (x : Py.num) : Z :=
  match x with Py.PInt z => z | Py.PFloat _ => 0 end.

(** Records whose amounts are all [int]s, all [float]s, all not below
    zero. *)
Definition int_amounts (rs : list PyRecord) : bool :=
  forallb (fun r => is_int (amount r)) rs.

Definition float_amounts (rs : list PyRecord) : bool :=
  forallb (fun r => is_float (amount r)) rs.

Definition nonneg_amounts (rs : list PyRecord) : bool :=
  forallb (fun r => 0 <=? int_value (amount r)) rs.

(** The sum of the amounts of records with [int] amounts, as an integer. *)
Definition total (rs : list PyRecord) : Z :=
  fold_right Z.add 0 (map (fun r => int_value (amount r)) rs).

(** ** Sample data *)

Definition noon (d : Datetime.date) : Datetime.datetime := mkdatetime d 12 0 0 0.

(** A world whose clock stays on day [d]. *)
Definition steady (d : Datetime.date) : world := mkworld (fun _ => noon d) 0.

Definition march10 : Datetime.date := mkdate 2024 3 10.

(** A calculator with the given limit and one record of today per amount. *)
Definition spent_today (limit : Z) (amounts : list Z) : Calculator :=
  fold_left add_record
    (map (fun a => mkRecord (Py.PInt a) march10 EmptyString) amounts)
    (Calculator_init (Py.PInt limit)).

Definition dated_record (a : Z) (d : Datetime.date) : PyRecord :=
  mkRecord (Py.PInt a) d EmptyString.

Definition across_midnight : world :=
  mkworld (fun i => match i with
                    | O => mkdatetime march10 23 59 59 999999
                    | S _ => mkdatetime (mkdate 2024 3 11) 0 0 0 0
                    end) 0.

Definition two_days : Calculator :=
  add_record
    (add_record (Calculator_init (Py.PInt 1000)) (dated_record 5 march10))
    (dated_record 7 (mkdate 2024 3 11)).

(** The float [-2.5]. *)
Definition minus_two_and_a_half : Py.num :=
  Py.PFloat (S754_finite true 5629499534213120 (-51)).

(** A record of [march10] whose amount is the float nearest to [k / 10]. *)
Definition tenths (k : Z) : PyRecord :=
  mkRecord (Py.PFloat (Py.of_ratio false k 10)) march10 EmptyString.


(** * Properties *)

(** ** Sums *)

Lemma py_sum_from_app acc xs x :
  py_sum_from acc (xs ++ [x]) = rbind (py_sum_from acc xs) (fun s => Py.add s x).
Proof.
  revert acc; induction xs as [|y ys IH]; intros acc; simpl.
  - destruct (Py.add acc x); reflexivity.
  - destruct (Py.add acc y) as [s|e]; simpl; [apply IH | reflexivity].
Qed.

(** ** Calendar facts *)

Lemma date_eqb_eq d1 d2 : date_eqb d1 d2 = true <-> d1 = d2.
Proof.
  destruct d1 as [y1 m1 a1], d2 as [y2 m2 a2]; unfold date_eqb; simpl.
  rewrite !andb_true_iff, !Z.eqb_eq. split.
  - intros [[-> ->] ->]; reflexivity.
  - intros H; inversion H; auto.
Qed.

Lemma date_eqb_refl d : date_eqb d d = true.
Proof. apply date_eqb_eq; reflexivity. Qed.



(** A month number between 1 and 12 is one of the twelve. *)
Lemma month_cases m :
  1 <= m <= 12 ->
  m = 1 \/ m = 2 \/ m = 3 \/ m = 4 \/ m = 5 \/ m = 6 \/
  m = 7 \/ m = 8 \/ m = 9 \/ m = 10 \/ m = 11 \/ m = 12.
Proof. lia. Qed.

Ltac each_month m H :=
  destruct (month_cases m H) as
    [?|[?|[?|[?|[?|[?|[?|[?|[?|[?|[?|?]]]]]]]]]]]; subst m.

Lemma days_before_month_step y m1 m2 :
  1 <= m1 <= 12 -> 1 <= m2 <= 12 -> m1 < m2 ->
  days_before_month y m1 + days_in_month y m1 <= days_before_month y m2.
Proof.
  intros H1 H2 Hlt. unfold days_before_month, days_in_month.
  each_month m1 H1; each_month m2 H2; try lia;
    destruct (is_leap y); simpl; lia.
Qed.

Lemma day_of_year_le y m :
  1 <= m <= 12 ->
  days_before_month y m + days_in_month y m
  <= 365 + (if is_leap y then 1 else 0).
Proof.
  intros H. unfold days_before_month, days_in_month.
  each_month m H; destruct (is_leap y); simpl; lia.
Qed.

Lemma days_before_month_nonneg y m :
  1 <= m <= 12 -> 0 <= days_before_month y m.
Proof.
  intros H. unfold days_before_month.
  each_month m H; destruct (is_leap y); simpl; lia.
Qed.

Lemma days_before_year_succ y :
  days_before_year (y + 1)
  = days_before_year y + 365 + (if is_leap y then 1 else 0).
Proof.
  unfold days_before_year, is_leap.
  replace (y + 1 - 1) with y by lia.
  destruct (y mod 4 =? 0) eqn:E4; destruct (y mod 100 =? 0) eqn:E100;
    destruct (y mod 400 =? 0) eqn:E400; simpl;
    rewrite ?Z.eqb_eq, ?Z.eqb_neq in *;
    Z.div_mod_to_equations; lia.
Qed.

Lemma days_before_year_mono y1 y2 :
  y1 <= y2 -> days_before_year y1 <= days_before_year y2.
Proof.
  intros H. unfold days_before_year. Z.div_mod_to_equations. lia.
Qed.

(** The order of dates is the order of their ordinals. *)
Lemma toordinal_lt d1 d2 :
  valid_date d1 = true -> valid_date d2 = true ->
  date_ltb d1 d2 = true -> toordinal d1 < toordinal d2.
Proof.
  destruct d1 as [y1 m1 a1], d2 as [y2 m2 a2].
  unfold valid_date, date_ltb, toordinal, ymd2ord.
  cbv [year month day].
  repeat (rewrite andb_true_iff || rewrite orb_true_iff).
  rewrite !Z.leb_le, !Z.ltb_lt, !Z.eqb_eq.
  intros [[[[[_ _] L1] U1] A1] B1] [[[[[_ _] L2] U2] A2] B2] H.
  destruct H as [Hy | [-> [Hm | [-> Ha]]]].
  - pose proof (day_of_year_le y1 m1 (conj L1 U1)).
    pose proof (days_before_year_succ y1).
    pose proof (days_before_year_mono (y1 + 1) y2 ltac:(lia)).
    pose proof (days_before_month_nonneg y2 m2 (conj L2 U2)).
    lia.
  - pose proof (days_before_month_step y2 m1 m2 (conj L1 U1) (conj L2 U2) Hm).
    lia.
  - lia.
Qed.

(** ** [Calculator]: the two window sums *)

(** Every state of a calculator is the one reached from a new calculator by
    adding its records in order. *)
Lemma records_added (l : Py.num) (rs : list PyRecord) :
  fold_left add_record rs (Calculator_init l) = mkCalculator l rs.
Proof.
  assert (G : forall done,
            fold_left add_record rs (mkCalculator l done)
            = mkCalculator l (done ++ rs)).
  { induction rs as [|r rs IH]; intros done; simpl.
    - rewrite app_nil_r. reflexivity.
    - unfold add_record at 2. simpl. rewrite IH, <- app_assoc. reflexivity. }
  apply (G []).
Qed.

Lemma clock_shows_next w n today :
  clock_shows w (S n) today ->
  date_of (clock w (reads w)) = today
  /\ clock_shows (mkworld (clock w) (S (reads w))) n today.
Proof.
  intros H. split.
  - rewrite <- (Nat.add_0_r (reads w)). apply H. lia.
  - intros i Hi. simpl. rewrite <- Nat.add_succ_r. apply H. lia.
Qed.

Lemma clock_shows_fewer w n k today :
  (k <= n)%nat -> clock_shows w n today -> clock_shows w k today.
Proof. intros Hk H i Hi. apply H. lia. Qed.

(** While the clock stays on one day, the loop of [get_today_stats] adds up
    the amounts of the records of that day, in order. *)
Lemma today_loop_value rs :
  forall acc w today,
    clock_shows w (List.length rs) today ->
    value (today_loop rs acc w)
    = py_sum_from acc (map amount (filter (dated today) rs)).
Proof.
  induction rs as [|r rs IH]; intros acc w today Hc; [reflexivity|].
  apply clock_shows_next in Hc. destruct Hc as [H0 Hn].
  simpl. unfold bind at 1. unfold datetime_now. rewrite H0.
  unfold dated at 1.
  destruct (date_eqb (date r) today); simpl.
  - unfold bind, lift. destruct (Py.add acc (amount r)) as [s|e]; simpl.
    + apply IH, Hn.
    + reflexivity.
  - apply IH, Hn.
Qed.

(** The loop of [get_week_stats] adds up the amounts of the records of the
    week window, in order. *)
Lemma week_loop_value today rs :
  forall acc w,
    value (week_loop today rs acc w)
    = py_sum_from acc (map amount (filter (in_week today) rs)).
Proof.
  induction rs as [|r rs IH]; intros acc w; [reflexivity|].
  simpl. unfold in_week at 1.
  rewrite Z.geb_leb, andb_comm.
  destruct ((0 <=? days_between today (date r))
            && (days_between today (date r) <? 7)); simpl.
  - unfold bind, lift. destruct (Py.add acc (amount r)) as [s|e]; simpl.
    + apply IH.
    + reflexivity.
  - apply IH.
Qed.

Lemma get_week_stats_value self w :
  value (get_week_stats self w)
  = py_sum (map amount
              (filter (in_week (date_of (clock w (reads w)))) (records self))).
Proof.
  unfold get_week_stats, bind, datetime_now. apply week_loop_value.
Qed.

Lemma filter_snoc {A} (f : A -> bool) xs x :
  filter f (xs ++ [x]) = filter f xs ++ (if f x then [x] else []).
Proof.
  induction xs as [|y ys IH]; simpl.
  - destruct (f x); reflexivity.
  - rewrite IH. destruct (f y); reflexivity.
Qed.




(** C2.  [get_week_stats()] reads the clock once and returns the sum of
    [amount] over exactly the records with
    [0 <= (today - record.date).days < 7], added in order onto [0].  A
    record dated exactly six days before today is part of the sum; one
    dated exactly seven days before today is not, nor is one dated after
    today. *)
Theorem get_week_stats_window (self : Calculator) (w : world) :
  let today := date_of (clock w (reads w)) in
  value (get_week_stats self w)
  = py_sum (map amount (filter (in_week today) (records self)))
  /\ (forall r, In r (filter (in_week today) (records self))
                <-> In r (records self) /\ 0 <= days_between today (date r) < 7)
  /\ (forall r, days_between today (date r) = 6 ->
      value (get_week_stats (add_record self r) w)
      = rbind (value (get_week_stats self w)) (fun s => Py.add s (amount r)))
  /\ (forall r, days_between today (date r) = 7 ->
      value (get_week_stats (add_record self r) w)
      = value (get_week_stats self w))
  /\ (forall r, valid_date today = true -> valid_date (date r) = true ->
      date_ltb today (date r) = true ->
      value (get_week_stats (add_record self r) w)
      = value (get_week_stats self w)).
Proof.
  intros today.
  assert (Hadd : forall r,
    value (get_week_stats (add_record self r) w)
    = py_sum (map amount (filter (in_week today) (records self)
                          ++ (if in_week today r then [r] else [])))).
  { intros r. rewrite get_week_stats_value. simpl. rewrite filter_snoc. reflexivity. }
  split; [apply get_week_stats_value|]. split; [|split; [|split]].
  - intros r. rewrite filter_In. unfold in_week.
    rewrite andb_true_iff, Z.leb_le, Z.ltb_lt. reflexivity.
  - intros r H6. rewrite Hadd, get_week_stats_value. fold today.
    unfold in_week at 2. rewrite H6. simpl.
    rewrite map_app. simpl. apply py_sum_from_app.
  - intros r H7. rewrite Hadd, get_week_stats_value. fold today.
    unfold in_week at 2. rewrite H7. simpl. rewrite app_nil_r. reflexivity.
  - intros r Vt Vr Hfut. rewrite Hadd, get_week_stats_value. fold today.
    pose proof (toordinal_lt _ _ Vt Vr Hfut) as Hlt.
    unfold in_week at 2. unfold days_between.
    replace (0 <=? toordinal today - toordinal (date r)) with false
      by (symmetry; apply Z.leb_gt; lia).
    simpl. rewrite app_nil_r. reflexivity.
Qed.

(** ** [Record]: the date of a new record *)

Lemma digit_cases k :
  0 <= k <= 9 ->
  k = 0 \/ k = 1 \/ k = 2 \/ k = 3 \/ k = 4 \/ k = 5 \/ k = 6 \/ k = 7 \/
  k = 8 \/ k = 9.
Proof. lia. Qed.

Lemma digit_char_spec k rest :
  0 <= k <= 9 ->
  next_codepoint (String (digit_char k) rest)
  = Some (48 + k, String (digit_char k) EmptyString, rest)
  /\ decimal_value (48 + k) = Some k.
Proof.
  intros H.
  destruct (digit_cases k H) as [?|[?|[?|[?|[?|[?|[?|[?|[?|?]]]]]]]]];
    subst k; split; reflexivity.
Qed.

Lemma digit_digit_char k rest :
  0 <= k <= 9 ->
  digit (String (digit_char k) rest) = Some (String (digit_char k) EmptyString, rest).
Proof.
  intros H. unfold digit.
  destruct (digit_char_spec k rest H) as [-> ->]. reflexivity.
Qed.

Lemma day_cases d :
  1 <= d <= 31 ->
  (d = 1 \/ d = 2 \/ d = 3 \/ d = 4 \/ d = 5 \/ d = 6 \/ d = 7 \/ d = 8) \/
  (d = 9 \/ d = 10 \/ d = 11 \/ d = 12 \/ d = 13 \/ d = 14 \/ d = 15 \/ d = 16) \/
  (d = 17 \/ d = 18 \/ d = 19 \/ d = 20 \/ d = 21 \/ d = 22 \/ d = 23 \/ d = 24) \/
  (d = 25 \/ d = 26 \/ d = 27 \/ d = 28 \/ d = 29 \/ d = 30 \/ d = 31).
Proof. lia. Qed.

Ltac each_day d H :=
  destruct (day_cases d H) as
    [[?|[?|[?|[?|[?|[?|[?|?]]]]]]]
    |[[?|[?|[?|[?|[?|[?|[?|?]]]]]]]
    |[[?|[?|[?|[?|[?|[?|[?|?]]]]]]]
    |[?|[?|[?|[?|[?|[?|?]]]]]]]]]; subst d.

Lemma match_fmt_directive d fmt' s :
  match_fmt (Directive d :: fmt') s
  = try_alternatives
      (fun txt rest =>
         match match_fmt fmt' rest with
         | Some (groups, tl) => Some ((d, txt) :: groups, tl)
         | None => None
         end)
      (alternatives d) s.
Proof. reflexivity. Qed.

Ltac show_digits n :=
  let v := eval vm_compute in (two_digits n) in
  change (two_digits n) with v.

(** The day group takes the two digits of a day when what follows the
    group in the pattern wants a point next: no shorter alternative gets
    through, as the second digit is no point. *)
Lemma day_group (A : Type) (k : string -> string -> option A) d rest :
  1 <= d <= 31 ->
  (forall txt c r, c <> "."%char -> k txt (String c r) = None) ->
  try_alternatives k (alternatives Dir_d) (two_digits d ++ String "." rest)%string
  = k (two_digits d) (String "." rest).
Proof.
  intros H K.
  each_day d H;
    match goal with |- context [two_digits ?n] => show_digits n end;
    vm_compute;
    repeat match goal with
           | |- context [k ?t (String ?c ?r)] => rewrite (K t c r) by discriminate
           end;
    match goal with |- context [k ?t ?r] => destruct (k t r) end; reflexivity.
Qed.

Lemma month_group (A : Type) (k : string -> string -> option A) m rest :
  1 <= m <= 12 ->
  (forall txt c r, c <> "."%char -> k txt (String c r) = None) ->
  try_alternatives k (alternatives Dir_m) (two_digits m ++ String "." rest)%string
  = k (two_digits m) (String "." rest).
Proof.
  intros H K.
  each_month m H;
    match goal with |- context [two_digits ?n] => show_digits n end;
    vm_compute;
    repeat match goal with
           | |- context [k ?t (String ?c ?r)] => rewrite (K t c r) by discriminate
           end;
    match goal with |- context [k ?t ?r] => destruct (k t r) end; reflexivity.
Qed.

Lemma literal_point_next (A : Type) fmt' (f : list (directive * string) * string -> option A) :
  forall c r, c <> "."%char ->
    match match_fmt (Literal "." :: fmt') (String c r) with
    | Some g => f g
    | None => None
    end = None.
Proof.
  intros c r Hc. cbn [match_fmt]. destruct (Ascii.eqb "." c) eqn:E; [|reflexivity].
  apply Ascii.eqb_eq in E. elim Hc. symmetry. exact E.
Qed.

Lemma match_day d fmt' rest :
  1 <= d <= 31 ->
  match_fmt (Directive Dir_d :: Literal "." :: fmt')
            (two_digits d ++ String "." rest)%string
  = match match_fmt fmt' rest with
    | Some (groups, tl) => Some ((Dir_d, two_digits d) :: groups, tl)
    | None => None
    end.
Proof.
  intros H. rewrite match_fmt_directive.
  rewrite day_group; [reflexivity | exact H |].
  intros txt c r Hc.
  apply (literal_point_next _ fmt'
           (fun g => let '(groups, tl) := g in Some ((Dir_d, txt) :: groups, tl))).
  exact Hc.
Qed.

Lemma match_month m fmt' rest :
  1 <= m <= 12 ->
  match_fmt (Directive Dir_m :: Literal "." :: fmt')
            (two_digits m ++ String "." rest)%string
  = match match_fmt fmt' rest with
    | Some (groups, tl) => Some ((Dir_m, two_digits m) :: groups, tl)
    | None => None
    end.
Proof.
  intros H. rewrite match_fmt_directive.
  rewrite month_group; [reflexivity | exact H |].
  intros txt c r Hc.
  apply (literal_point_next _ fmt'
           (fun g => let '(groups, tl) := g in Some ((Dir_m, txt) :: groups, tl))).
  exact Hc.
Qed.

Lemma year_digits y :
  0 <= y <= 9999 ->
  0 <= y / 1000 <= 9 /\ 0 <= y / 100 mod 10 <= 9
  /\ 0 <= y / 10 mod 10 <= 9 /\ 0 <= y mod 10 <= 9
  /\ y = ((y / 1000 * 10 + y / 100 mod 10) * 10 + y / 10 mod 10) * 10 + y mod 10.
Proof. intros H. Z.div_mod_to_equations. lia. Qed.

Lemma match_year y :
  0 <= y <= 9999 ->
  match_fmt [Directive Dir_Y] (four_digits y)
  = Some ([(Dir_Y, four_digits y)], EmptyString).
Proof.
  intros H. destruct (year_digits y H) as (Ha & Hb & Hc & Hd & _).
  unfold four_digits. rewrite match_fmt_directive.
  cbn [alternatives try_alternatives match_classes].
  rewrite (digit_digit_char _ _ Ha), (digit_digit_char _ _ Hb),
    (digit_digit_char _ _ Hc), (digit_digit_char _ _ Hd).
  reflexivity.
Qed.

Lemma int_of_two_digits n :
  1 <= n <= 31 ->
  int_of_text (String.length (two_digits n)) 0 (two_digits n) = n.
Proof. intros H. each_day n H; reflexivity. Qed.

Lemma int_of_four_digits y :
  0 <= y <= 9999 ->
  int_of_text (String.length (four_digits y)) 0 (four_digits y) = y.
Proof.
  intros H. destruct (year_digits y H) as (Ha & Hb & Hc & Hd & Hy).
  unfold four_digits. cbn [String.length int_of_text].
  destruct (digit_char_spec _ (String (digit_char (y / 100 mod 10))
              (String (digit_char (y / 10 mod 10))
                 (String (digit_char (y mod 10)) EmptyString))) Ha) as [-> ->].
  destruct (digit_char_spec _ (String (digit_char (y / 10 mod 10))
              (String (digit_char (y mod 10)) EmptyString)) Hb) as [-> ->].
  destruct (digit_char_spec _ (String (digit_char (y mod 10)) EmptyString) Hc)
    as [-> ->].
  destruct (digit_char_spec _ EmptyString Hd) as [-> ->].
  lia.
Qed.

Lemma valid_date_bounds d :
  valid_date d = true ->
  1 <= year d <= 9999 /\ 1 <= month d <= 12 /\ 1 <= day d <= 31.
Proof.
  destruct d as [y m a]. unfold valid_date, MINYEAR, MAXYEAR.
  cbv [year month day].
  rewrite !andb_true_iff, !Z.leb_le.
  intros [[[[[Y1 Y2] L] U] A] B].
  assert (days_in_month y m <= 31).
  { clear B. unfold days_in_month. each_month m (conj L U);
      destruct (is_leap y); simpl; lia. }
  lia.
Qed.

(** Reading back the text of a valid date gives that date at midnight. *)
Lemma strptime_text_dmY d :
  valid_date d = true ->
  strptime (text_dmY d) fmt_dmY = Ok (mkdatetime d 0 0 0 0).
Proof.
  intros V. destruct (valid_date_bounds d V) as (Hy & Hm & Hd).
  unfold strptime, text_dmY, fmt_dmY.
  change ("." ++ two_digits (month d) ++ "." ++ four_digits (year d))%string
    with (String "." (two_digits (month d) ++ String "." (four_digits (year d))))%string.
  rewrite (match_day _ _ _ Hd), (match_month _ _ _ Hm), match_year by lia.
  unfold group. cbn [find fst snd directive_eqb].
  rewrite !int_of_two_digits, int_of_four_digits by lia.
  unfold new_datetime, new_date.
  destruct d as [y m a]. simpl in V |- *. rewrite V. reflexivity.
Qed.

(** Texts the library takes besides [DD.MM.YYYY]: one-digit days and
    months, a day after a blank, digits of another script after the first;
    and texts it refuses. *)
Example strptime_samples :
  strptime "1.3.2024" fmt_dmY = Ok (mkdatetime (mkdate 2024 3 1) 0 0 0 0)
  /\ strptime " 1.03.2024" fmt_dmY = Ok (mkdatetime (mkdate 2024 3 1) 0 0 0 0)
  /\ strptime "1٢.03.٢٠٢٤" fmt_dmY = Ok (mkdatetime (mkdate 2024 3 12) 0 0 0 0)
  /\ strptime "29.02.2023" fmt_dmY = Err ValueError
  /\ strptime "01.03.24" fmt_dmY = Err ValueError
  /\ strptime "01.03.2024 " fmt_dmY = Err ValueError
  /\ strptime "01.01.0000" fmt_dmY = Err ValueError.
Proof. repeat split. Qed.

Lemma strptime_error s e : strptime s fmt_dmY = Err e -> e = ValueError.
Proof.
  unfold strptime, new_datetime, new_date, rmap, rbind.
  destruct (match_fmt fmt_dmY s) as [[g [|a tl]]|];
    try (intros H; inversion H; reflexivity).
  destruct (valid_date _); intros H; inversion H; reflexivity.
Qed.

(** What [strptime] returns is a valid calendar day at midnight. *)
Lemma strptime_ok s t :
  strptime s fmt_dmY = Ok t ->
  valid_date (date_of t) = true /\ t = mkdatetime (date_of t) 0 0 0 0.
Proof.
  unfold strptime, new_datetime, new_date, rmap, rbind.
  destruct (match_fmt fmt_dmY s) as [[g [|a tl]]|]; try discriminate.
  destruct (valid_date _) eqn:V; [|discriminate].
  intros H; inversion H; subst t; simpl. split; [exact V | reflexivity].
Qed.

Lemma truthy_nonempty s : s <> EmptyString -> truthy s = true.
Proof. destruct s; [intros H; elim H; reflexivity | reflexivity]. Qed.

(** C5.  The date of a new record: with no date text it is the day the
    clock shows when the record is built; a date text is given to
    [strptime] with the format [%d.%m.%Y], whose result, a valid calendar
    day, becomes the date (so the text [DD.MM.YYYY] of any valid day gives
    back that day); and when [strptime] refuses the text its [ValueError]
    is what the construction raises. *)
Theorem Record_date_resolution (amount : Py.num) (comment : string) (w : world) :
  Record_new amount comment None w
  = Return (mkRecord amount (date_of (clock w (reads w))) comment)
           (mkworld (clock w) (S (reads w)))
  /\ (forall s t, s <> EmptyString -> strptime s fmt_dmY = Ok t ->
      valid_date (date_of t) = true
      /\ Record_new amount comment (Some s) w
         = Return (mkRecord amount (date_of t) comment) w)
  /\ (forall d, valid_date d = true ->
      Record_new amount comment (Some (text_dmY d)) w
      = Return (mkRecord amount d comment) w)
  /\ (forall s e, s <> EmptyString -> strptime s fmt_dmY = Err e ->
      e = ValueError
      /\ Record_new amount comment (Some s) w = Raise ValueError w).
Proof.
  split; [reflexivity|]. split; [|split].
  - intros s t Hs Ht. split; [apply (strptime_ok s t Ht)|].
    unfold Record_new, Record_init, bind, lift. rewrite (truthy_nonempty s Hs), Ht.
    reflexivity.
  - intros d V. unfold Record_new, Record_init, bind, lift.
    rewrite (strptime_text_dmY d V). reflexivity.
  - intros s e Hs He. pose proof (strptime_error s e He) as ->.
    split; [reflexivity|].
    unfold Record_new, Record_init, bind, lift. rewrite (truthy_nonempty s Hs), He.
    reflexivity.
Qed.

(** C9.  [Record(amount, comment, '')] is [Record(amount, comment)]: the
    date is the day the clock shows, and the construction succeeds although
    [strptime] refuses the empty text, which is therefore never given to
    it. *)
Theorem Record_empty_date (amount : Py.num) (comment : string) (w : world) :
  Record_new amount comment (Some EmptyString) w = Record_new amount comment None w
  /\ Record_new amount comment (Some EmptyString) w
     = Return (mkRecord amount (date_of (clock w (reads w))) comment)
              (mkworld (clock w) (S (reads w)))
  /\ strptime EmptyString fmt_dmY = Err ValueError.
Proof. repeat split. Qed.

(** ** [CashCalculator.get_week_stats] *)

(** C8.  The override runs the base [get_week_stats] (same clock reading,
    same exception if the base raises one) and returns [None] where the
    base returns the sum over the week window. *)
Theorem CashCalculator_get_week_stats_dead (self : Calculator) (w : world) :
  let today := date_of (clock w (reads w)) in
  value (CashCalculator_get_week_stats self w)
  = rmap (fun _ => tt) (value (get_week_stats self w))
  /\ world_after (CashCalculator_get_week_stats self w)
     = world_after (get_week_stats self w)
  /\ value (get_week_stats self w)
     = py_sum (map amount (filter (in_week today) (records self)))
  /\ (forall s, value (get_week_stats self w) = Ok s ->
      value (CashCalculator_get_week_stats self w) = Ok tt).
Proof.
  intros today. unfold CashCalculator_get_week_stats, bind.
  split; [|split; [|split]].
  - destruct (get_week_stats self w); reflexivity.
  - destruct (get_week_stats self w); reflexivity.
  - apply get_week_stats_value.
  - intros s. destruct (get_week_stats self w); simpl; [reflexivity|discriminate].
Qed.

(** ** Facts about numbers *)

Lemma cmp_zero_finite (s : bool) (m : positive) (e : Z) :
  Py.cmp_int_float 0 (S754_finite s m e) = Some (if s then Gt else Lt).
Proof.
  unfold Py.cmp_int_float.
  destruct (0 <=? e) eqn:E.
  - apply Z.leb_le in E.
    pose proof (Z.pow_pos_nonneg 2 e ltac:(lia) E) as P.
    destruct s; f_equal.
    + apply Z.compare_gt_iff. nia.
    + apply Z.compare_lt_iff. nia.
  - destruct s; reflexivity.
Qed.

(** The three comparisons with [0] exclude one another, and none holds
    exactly for a NaN. *)
Lemma sign_cases x :
  (Py.gt x zero = true /\ Py.eq x zero = false /\ Py.lt x zero = false /\ is_nan x = false)
  \/ (Py.gt x zero = false /\ Py.eq x zero = true /\ Py.lt x zero = false /\ is_nan x = false)
  \/ (Py.gt x zero = false /\ Py.eq x zero = false /\ Py.lt x zero = true /\ is_nan x = false)
  \/ (Py.gt x zero = false /\ Py.eq x zero = false /\ Py.lt x zero = false /\ is_nan x = true).
Proof.
  unfold Py.gt, Py.eq, Py.lt, zero.
  destruct x as [a|f].
  - simpl. destruct (a ?= 0); tauto.
  - destruct f as [s|s| |s m e].
    + simpl. tauto.
    + simpl. destruct s; simpl; tauto.
    + simpl. tauto.
    + unfold Py.compare. rewrite cmp_zero_finite. destruct s; simpl; tauto.
Qed.

(** Below zero, negation is the absolute value. *)
Lemma neg_abs x : Py.lt x zero = true -> Py.neg x = py_abs x.
Proof.
  unfold Py.lt, zero. destruct x as [a|f].
  - simpl. destruct (a ?= 0) eqn:E; try discriminate.
    intros _. change (a < 0) in E. f_equal. lia.
  - destruct f as [s|s| |s m e].
    + simpl. discriminate.
    + simpl. destruct s; simpl; [reflexivity | discriminate].
    + simpl. discriminate.
    + unfold Py.compare. rewrite cmp_zero_finite.
      destruct s; simpl; [reflexivity | discriminate].
Qed.

(** [x == 0] holds of the integer [0] and of the two float zeros only. *)
Lemma eq_zero_cases x :
  Py.eq x zero = true ->
  x = Py.PInt 0 \/ exists s, x = Py.PFloat (S754_zero s).
Proof.
  unfold Py.eq, zero. destruct x as [a|f].
  - simpl. destruct (a ?= 0) eqn:E; try discriminate.
    apply Z.compare_eq_iff in E. subst. left; reflexivity.
  - destruct f as [s|s| |s m e].
    + right. exists s. reflexivity.
    + simpl. destruct s; discriminate.
    + simpl. discriminate.
    + unfold Py.compare. rewrite cmp_zero_finite. destruct s; discriminate.
Qed.

Lemma binary_round_aux_sign m e l :
  binary_round_aux Py.prec Py.emax true m e l
  = SFopp (binary_round_aux Py.prec Py.emax false m e l).
Proof.
  unfold binary_round_aux.
  destruct (shr_fexp Py.prec Py.emax m e l) as [mrs' e'].
  destruct (shr_fexp Py.prec Py.emax _ e' loc_Exact) as [mrs'' e''].
  destruct (shr_m mrs''); try reflexivity.
  destruct (e'' <=? Py.emax - Py.prec); reflexivity.
Qed.

(** [float(-z)] fails exactly when [float(z)] does. *)
Lemma float_of_int_opp z :
  is_ok (Py.float_of_int (- z)) = is_ok (Py.float_of_int z).
Proof.
  unfold Py.float_of_int, binary_normalize, binary_round.
  destruct z as [|p|p]; simpl Z.opp; cbv iota beta.
  - reflexivity.
  - destruct (shl_align p 0 _) as [mz ez].
    rewrite binary_round_aux_sign.
    destruct (binary_round_aux Py.prec Py.emax false (Z.pos mz) ez loc_Exact);
      reflexivity.
  - destruct (shl_align p 0 _) as [mz ez].
    rewrite binary_round_aux_sign.
    destruct (binary_round_aux Py.prec Py.emax false (Z.pos mz) ez loc_Exact);
      reflexivity.
Qed.

Lemma in_double_range_neg x :
  in_double_range x = true -> in_double_range (Py.neg x) = true.
Proof.
  unfold in_double_range. destruct x as [a|f]; simpl; [|reflexivity].
  rewrite float_of_int_opp. intros H; exact H.
Qed.

(** ** Rounding to binary64 *)

Lemma digits2_pos_bounds p :
  2 ^ (Z.pos (digits2_pos p) - 1) <= Z.pos p < 2 ^ Z.pos (digits2_pos p).
Proof.
  induction p as [p IH|p IH|]; simpl digits2_pos.
  - rewrite Pos2Z.inj_succ.
    replace (Z.succ (Z.pos (digits2_pos p)) - 1) with (Z.succ (Z.pos (digits2_pos p) - 1)) by lia.
    rewrite !Z.pow_succ_r by lia. lia.
  - rewrite Pos2Z.inj_succ.
    replace (Z.succ (Z.pos (digits2_pos p)) - 1) with (Z.succ (Z.pos (digits2_pos p) - 1)) by lia.
    rewrite !Z.pow_succ_r by lia. lia.
  - simpl. lia.
Qed.

Lemma shr_1_m mrs : 0 <= shr_m mrs -> shr_m (shr_1 mrs) = shr_m mrs / 2.
Proof.
  destruct mrs as [m r s]. simpl. intros H.
  destruct m as [|[p|p|]|p]; cbn [shr_1 shr_m]; try lia; try reflexivity.
  - rewrite Pos2Z.inj_xI. Z.div_mod_to_equations. lia.
  - rewrite Pos2Z.inj_xO. Z.div_mod_to_equations. lia.
Qed.

Lemma iter_shr_m p :
  forall mrs, 0 <= shr_m mrs ->
    shr_m (iter_pos shr_1 p mrs) = shr_m mrs / 2 ^ Z.pos p.
Proof.
  induction p as [p IH|p IH|]; intros mrs H; simpl iter_pos.
  - assert (P : 0 < 2 ^ Z.pos p) by (apply Z.pow_pos_nonneg; lia).
    assert (H1 : 0 <= shr_m (shr_1 mrs)) by (rewrite shr_1_m by exact H; apply Z.div_pos; lia).
    assert (H2 : 0 <= shr_m (iter_pos shr_1 p (shr_1 mrs)))
      by (rewrite IH by exact H1; apply Z.div_pos; lia).
    rewrite IH by exact H2. rewrite IH by exact H1. rewrite shr_1_m by exact H.
    rewrite !Z.div_div by lia.
    f_equal. replace (Z.pos p~1) with (1 + Z.pos p + Z.pos p) by lia.
    rewrite !Z.pow_add_r by lia. lia.
  - assert (P : 0 < 2 ^ Z.pos p) by (apply Z.pow_pos_nonneg; lia).
    assert (H2 : 0 <= shr_m (iter_pos shr_1 p mrs))
      by (rewrite IH by exact H; apply Z.div_pos; lia).
    rewrite IH by exact H2. rewrite IH by exact H.
    rewrite !Z.div_div by lia.
    f_equal. replace (Z.pos p~0) with (Z.pos p + Z.pos p) by lia.
    rewrite !Z.pow_add_r by lia. lia.
  - rewrite shr_1_m by exact H. reflexivity.
Qed.

(** The mantissa and exponent after [shr]. *)
Lemma shr_spec mrs e n :
  0 <= shr_m mrs ->
  let r := shr mrs e n in
  (0 < n -> shr_m (fst r) = shr_m mrs / 2 ^ n /\ snd r = e + n)
  /\ (n <= 0 -> r = (mrs, e)).
Proof.
  intros H. unfold shr. destruct n as [|p|p]; simpl; split; intros; try lia; try reflexivity.
  split; [apply iter_shr_m; exact H | reflexivity].
Qed.

Lemma fexp_eq e : fexp Py.prec Py.emax e = fexp64 e.
Proof. reflexivity. Qed.

Lemma shr_m_of_loc m l : shr_m (shr_record_of_loc m l) = m.
Proof. destruct l as [|[]]; reflexivity. Qed.

Lemma round_nearest_even_bounds m l :
  m <= round_nearest_even m l <= m + 1.
Proof. unfold round_nearest_even. destruct l as [|[]]; try lia. destruct (Z.even m); lia. Qed.

(** What [shr_fexp] leaves of a positive mantissa: exponent at least [emin],
    mantissa at least 1 when the number is above the smallest exponent, and
    below [2^53] when no left shift was needed. *)
Lemma shr_fexp_spec m e l :
  0 < m ->
  let d := Zdigits2 m in
  let r := shr_fexp Py.prec Py.emax m e l in
  let m1 := shr_m (fst r) in
  let e1 := snd r in
  0 <= m1
  /\ (e <= fexp64 (d + e) -> e1 = fexp64 (d + e) /\ m1 < 2 ^ 53)
  /\ (fexp64 (d + e) <= e -> e1 = e /\ m1 = m)
  /\ (-1074 < d + e -> 1 <= m1).
Proof.
  intros Hm d r m1 e1.
  assert (Hd : 2 ^ (d - 1) <= m < 2 ^ d /\ 1 <= d).
  { destruct m as [|p|p]; try lia. subst d. simpl Zdigits2.
    split; [apply digits2_pos_bounds | lia]. }
  destruct Hd as [Hd Hd1].
  subst r m1 e1. unfold shr_fexp. rewrite fexp_eq.
  set (n := fexp64 (d + e) - e).
  pose proof (shr_spec (shr_record_of_loc m l) e n) as S.
  rewrite shr_m_of_loc in S. specialize (S ltac:(lia)). cbv zeta in S.
  destruct S as [Spos Sneg].
  fold d.
  destruct (Z_lt_le_dec 0 n) as [Hn|Hn].
  - destruct (Spos Hn) as [Em Ee]. fold n. rewrite Em, Ee.
    assert (P : 0 < 2 ^ n) by (apply Z.pow_pos_nonneg; lia).
    split; [apply Z.div_pos; lia|].
    split; [|split].
    + intros _. split; [subst n; lia|].
      apply Z.div_lt_upper_bound; [lia|].
      assert (d <= n + 53) by (subst n; unfold fexp64; lia).
      apply Z.lt_le_trans with (1 := proj2 Hd).
      rewrite <- Z.pow_add_r by lia. apply Z.pow_le_mono_r; lia.
    + intros Hle. subst n. lia.
    + intros Hmin. apply Z.div_le_lower_bound; [lia|].
      assert (n <= d - 1) by (subst n; unfold fexp64; lia).
      apply Z.le_trans with (2 := proj1 Hd). rewrite Z.mul_1_r.
      apply Z.pow_le_mono_r; lia.
  - fold n. rewrite (Sneg Hn). simpl fst. simpl snd. rewrite shr_m_of_loc.
    split; [lia|]. split; [|split].
    + intros Hle. assert (n = 0) by (subst n; lia). split; [subst n; lia|].
      assert (d <= 53) by (subst n; unfold fexp64 in *; lia).
      apply Z.lt_le_trans with (1 := proj2 Hd). apply Z.pow_le_mono_r; lia.
    + intros _. split; reflexivity.
    + intros _. lia.
Qed.

Lemma Zdigits2_bounds m :
  0 < m -> 2 ^ (Zdigits2 m - 1) <= m < 2 ^ Zdigits2 m /\ 1 <= Zdigits2 m.
Proof.
  intros H. destruct m as [|p|p]; try lia. simpl Zdigits2.
  split; [apply digits2_pos_bounds | lia].
Qed.

(** A positive number below [2^k] has at most [k] binary digits, and one
    that is at least [2^k] has more than [k]. *)
Lemma Zdigits2_le m k : 0 < m -> 0 <= k -> m < 2 ^ k -> Zdigits2 m <= k.
Proof.
  intros Hm Hk H. destruct (Zdigits2_bounds m Hm) as [[L _] D].
  destruct (Z_le_gt_dec (Zdigits2 m) k) as [|G]; [assumption|].
  assert (2 ^ k <= 2 ^ (Zdigits2 m - 1)) by (apply Z.pow_le_mono_r; lia). lia.
Qed.

Lemma Zdigits2_gt m k : 0 <= k -> 2 ^ k <= m -> k < Zdigits2 m.
Proof.
  intros Hk H.
  assert (Hm : 0 < m) by (pose proof (Z.pow_pos_nonneg 2 k ltac:(lia) Hk); lia).
  destruct (Zdigits2_bounds m Hm) as [[_ U] D].
  destruct (Z_lt_le_dec k (Zdigits2 m)) as [|G]; [assumption|].
  assert (2 ^ Zdigits2 m <= 2 ^ k) by (apply Z.pow_le_mono_r; lia). lia.
Qed.

Lemma binary_round_aux_spec s m e l :
  0 < m ->
  let d := Zdigits2 m in
  exists m3 e3,
    binary_round_aux Py.prec Py.emax s m e l = assemble s m3 e3
    /\ 0 <= m3
    /\ (-1074 < d + e -> 1 <= m3)
    /\ (e <= fexp64 (d + e) -> d + e <= 1023 -> e3 <= 971)
    /\ (e <= fexp64 (d + e) -> 972 <= fexp64 (d + e) -> 972 <= e3).
Proof.
  intros Hm d. unfold binary_round_aux.
  pose proof (shr_fexp_spec m e l Hm) as S1. cbv zeta in S1. fold d in S1.
  destruct (shr_fexp Py.prec Py.emax m e l) as [mrs' e'].
  simpl fst in S1; simpl snd in S1.
  destruct S1 as (N1 & A1 & B1 & C1).
  pose proof (round_nearest_even_bounds (shr_m mrs') (loc_of_shr_record mrs')) as R.
  set (m2 := round_nearest_even (shr_m mrs') (loc_of_shr_record mrs')) in *.
  assert (E' : -1074 <= e').
  { destruct (Z_le_gt_dec e (fexp64 (d + e))) as [Hle|Hgt].
    - destruct (A1 Hle) as [-> _]. unfold fexp64. lia.
    - destruct (B1 ltac:(lia)) as [-> _]. unfold fexp64 in Hgt. lia. }
  destruct (Z.eq_dec m2 0) as [Z2|NZ2].
  - (* the mantissa rounded to nothing *)
    rewrite Z2.
    exists 0, 0. split.
    + unfold shr_fexp. simpl Zdigits2. 
      destruct (fexp Py.prec Py.emax (0 + e') - e') as [|p|p]; simpl.
      * reflexivity.
      * rewrite iter_shr_m by (simpl; lia). simpl shr_m. rewrite Z.div_0_l; [reflexivity|].
        pose proof (Z.pow_pos_nonneg 2 (Z.pos p)). lia.
      * reflexivity.
    + split; [lia|]. split; [intros H; specialize (C1 H); lia|].
      split; [lia|]. intros Hle H972. destruct (A1 Hle) as [_ U].
      exfalso.
      (* m1 = 0 here, so nothing to contradict: the exponent bound is moot *)
      assert (M1 : shr_m mrs' = 0) by lia.
      assert (-1074 < d + e) by (unfold fexp64 in H972; lia).
      specialize (C1 H). lia.
  - assert (P2 : 0 < m2) by lia.
    pose proof (shr_fexp_spec m2 e' loc_Exact P2) as S2. cbv zeta in S2.
    destruct (shr_fexp Py.prec Py.emax m2 e' loc_Exact) as [mrs'' e''].
    simpl fst in S2; simpl snd in S2.
    destruct S2 as (N2 & A2 & B2 & C2).
    destruct (Zdigits2_bounds m2 P2) as [_ D2].
    exists (shr_m mrs''), e''. split; [reflexivity|].
    split; [exact N2|]. split; [intros _; apply C2; lia|]. split.
    + intros Hle Hd. destruct (A1 Hle) as [-> U].
      assert (Zdigits2 m2 <= 54).
      { destruct (Z.eq_dec m2 (2 ^ 53)) as [->|].
        - reflexivity.
        - apply Z.le_trans with 53; [|lia]. apply Zdigits2_le; lia. }
      destruct (Z_le_gt_dec (fexp64 (d + e)) (fexp64 (Zdigits2 m2 + fexp64 (d + e)))) as [L|G].
      * destruct (A2 L) as [-> _]. unfold fexp64. lia.
      * destruct (B2 ltac:(lia)) as [-> _]. unfold fexp64. lia.
    + intros Hle H972. destruct (A1 Hle) as [-> U].
      destruct (Z_le_gt_dec (fexp64 (d + e)) (fexp64 (Zdigits2 m2 + fexp64 (d + e)))) as [L|G].
      * destruct (A2 L) as [-> _]. lia.
      * destruct (B2 ltac:(lia)) as [-> _]. lia.
Qed.

Lemma assemble_not_zero s m3 e3 : 1 <= m3 -> Py.is_zero (assemble s m3 e3) = false.
Proof.
  intros H. destruct m3 as [|p|p]; try lia. simpl.
  destruct (e3 <=? 971); reflexivity.
Qed.

Lemma assemble_infinity s m3 e3 :
  0 <= m3 ->
  is_infinity (assemble s m3 e3) = (0 <? m3) && (971 <? e3).
Proof.
  intros H. destruct m3 as [|p|p]; try lia; simpl; [reflexivity|].
  destruct (e3 <=? 971) eqn:E; simpl.
  - apply Z.leb_le in E. symmetry. apply Z.ltb_ge. lia.
  - apply Z.leb_gt in E. symmetry. apply Z.ltb_lt. lia.
Qed.

Lemma is_infinity_sign m e l :
  is_infinity (binary_round_aux Py.prec Py.emax true m e l)
  = is_infinity (binary_round_aux Py.prec Py.emax false m e l).
Proof.
  rewrite binary_round_aux_sign.
  destruct (binary_round_aux Py.prec Py.emax false m e l); reflexivity.
Qed.

Lemma float_of_int_infinity z :
  Py.float_of_int z
  = if is_infinity (binary_normalize Py.prec Py.emax z 0 false) then Err OverflowError
    else Ok (binary_normalize Py.prec Py.emax z 0 false).
Proof.
  unfold Py.float_of_int. destruct (binary_normalize Py.prec Py.emax z 0 false); reflexivity.
Qed.

(** [shl_align] on an integer: no change when the integer has more than 53
    digits; in any case the exponent is at least [emin] or the one given. *)
Lemma shl_align_int p :
  let d := Z.pos (digits2_pos p) in
  let r := shl_align p 0 (fexp64 d) in
  (53 <= d -> r = (p, 0))
  /\ -1074 < Z.pos (digits2_pos (fst r)) + snd r.
Proof.
  intros d r. subst r. unfold shl_align.
  destruct (fexp64 d - 0) as [|k|k] eqn:E.
  - split; [reflexivity|]. cbn [fst snd]. lia.
  - split; [reflexivity|]. cbn [fst snd]. lia.
  - split.
    + intros H. unfold fexp64 in E. lia.
    + cbn [fst snd]. unfold fexp64 in *. lia.
Qed.

Lemma binary_normalize_int (s : bool) (p : positive) :
  binary_round Py.prec Py.emax s p 0
  = let r := shl_align p 0 (fexp64 (Z.pos (digits2_pos p))) in
    binary_round_aux Py.prec Py.emax s (Z.pos (fst r)) (snd r) loc_Exact.
Proof.
  unfold binary_round. rewrite Z.add_0_r, fexp_eq.
  destruct (shl_align p 0 (fexp64 (Z.pos (digits2_pos p)))); reflexivity.
Qed.

(** [float(z)] is zero for [z = 0] only. *)
Lemma float_of_int_nonzero z g :
  z <> 0 -> Py.float_of_int z = Ok g -> Py.is_zero g = false.
Proof.
  intros Hz. rewrite float_of_int_infinity.
  destruct (is_infinity _); [discriminate|]. intros H; inversion H; subst g; clear H.
  assert (G : forall s p, Py.is_zero (binary_round Py.prec Py.emax s p 0) = false).
  { intros s p. rewrite binary_normalize_int. cbv zeta.
    destruct (shl_align_int p) as [_ B]. 
    destruct (binary_round_aux_spec s (Z.pos (fst (shl_align p 0 (fexp64 (Z.pos (digits2_pos p))))))
               (snd (shl_align p 0 (fexp64 (Z.pos (digits2_pos p))))) loc_Exact ltac:(lia))
      as (m3 & e3 & -> & _ & NZ & _).
    apply assemble_not_zero, NZ. exact B. }
  destruct z as [|p|p]; [lia| |]; apply G.
Qed.

(** An [int] that [float()] accepts has at most 1024 binary digits. *)
Lemma float_of_int_digits z g :
  Py.float_of_int z = Ok g -> Zdigits2 z <= 1024.
Proof.
  rewrite float_of_int_infinity.
  destruct (is_infinity _) eqn:I; [discriminate|]. intros _.
  destruct (Z_le_gt_dec (Zdigits2 z) 1024) as [|G]; [assumption|]. exfalso.
  assert (K : forall s p, 1024 < Z.pos (digits2_pos p) ->
            is_infinity (binary_round Py.prec Py.emax s p 0) = true).
  { intros s p Hp. rewrite binary_normalize_int. cbv zeta.
    destruct (shl_align_int p) as [A _]. rewrite (A ltac:(lia)). simpl fst; simpl snd.
    destruct (binary_round_aux_spec s (Z.pos p) 0 loc_Exact ltac:(lia))
      as (m3 & e3 & -> & N & NZ & _ & Big).
    simpl Zdigits2 in *. rewrite assemble_infinity by exact N.
    assert (1 <= m3) by (apply NZ; lia).
    assert (972 <= e3) by (apply Big; unfold fexp64; lia).
    apply andb_true_iff. split; apply Z.ltb_lt; lia. }
  destruct z as [|p|p]; simpl in G; try lia; simpl in I;
    rewrite K in I by lia; discriminate.
Qed.

Lemma shr_unchanged mrs e n : n <= 0 -> shr mrs e n = (mrs, e).
Proof. intros H. unfold shr. destruct n as [|p|p]; try reflexivity. lia. Qed.

Lemma loc_of_record_of_loc m l : loc_of_shr_record (shr_record_of_loc m l) = l.
Proof. destruct l as [|[]]; reflexivity. Qed.

(** A quotient that rounds from the mantissa [0] is zero or the smallest
    number of its exponent, not an infinity. *)
Lemma binary_round_aux_zero s e l :
  -1074 <= e <= 971 ->
  is_infinity (binary_round_aux Py.prec Py.emax s 0 e l) = false.
Proof.
  intros He. unfold binary_round_aux, shr_fexp. rewrite !fexp_eq.
  simpl Zdigits2. rewrite shr_unchanged by (unfold fexp64; lia).
  rewrite loc_of_record_of_loc, shr_m_of_loc.
  assert (C : round_nearest_even 0 l = 0 \/ round_nearest_even 0 l = 1)
    by (destruct l as [|[]]; simpl; auto).
  destruct C as [-> | ->].
  - simpl Zdigits2. rewrite fexp_eq.
    rewrite shr_unchanged by (unfold fexp64; lia). reflexivity.
  - simpl Zdigits2. rewrite fexp_eq.
    rewrite shr_unchanged by (unfold fexp64; lia).
    cbn [shr_m shr_record_of_loc].
    replace (e <=? Py.emax - Py.prec) with true; [reflexivity|].
    symmetry. apply Z.leb_le. unfold Py.emax, Py.prec. lia.
Qed.

Lemma pow2_pos k : 0 <= k -> 0 < 2 ^ k.
Proof. intros H. apply Z.pow_pos_nonneg; lia. Qed.

(** The quotient and the exponent [SFdiv_core_binary] hands to the
    rounding, for two positive integers. *)
Lemma div_core_int a b :
  0 < a -> 0 < b ->
  let d1 := Zdigits2 a in
  let d2 := Zdigits2 b in
  let e' := Z.min (fexp64 (d1 - d2)) 0 in
  exists l,
    SFdiv_core_binary Py.prec Py.emax a 0 b 0 = (a * 2 ^ (- e') / b, e', l)
    /\ (b = 1 -> 0 <= fexp64 (d1 - d2) -> l = loc_Exact).
Proof.
  intros Ha Hb d1 d2 e'. unfold SFdiv_core_binary.
  rewrite !Z.add_0_r, Z.sub_0_r, fexp_eq. fold d1 d2. fold e'.
  replace (0 - e') with (- e') by lia.
  assert (He : e' <= 0) by (subst e'; lia).
  set (m' := match - e' with Z.pos _ => Z.shiftl a (- e') | 0 => a | Z.neg _ => 0 end).
  assert (Hm : m' = a * 2 ^ (- e')).
  { subst m'. destruct (- e') as [|k|k] eqn:E;
      [ change (2 ^ 0) with 1; lia
      | rewrite Z.shiftl_mul_pow2 by lia; reflexivity
      | lia ]. }
  destruct (Z.div_eucl m' b) as [Q R] eqn:D.
  assert (HQ : Q = m' / b) by (unfold Z.div; rewrite D; reflexivity).
  assert (HR : R = m' mod b) by (unfold Z.modulo; rewrite D; reflexivity).
  exists (new_location b R). rewrite HQ, Hm. split; [reflexivity|].
  intros -> Hf. rewrite HR, Z.mod_1_r. reflexivity.
Qed.

(** [int / int] stays in the double range when the dividend is: the
    quotient of an [int] that [float()] accepts by a nonzero [int] rounds
    to no infinity. *)
Lemma of_ratio_finite s a b g :
  0 <= a -> 0 < b -> Py.float_of_int a = Ok g ->
  is_infinity (Py.of_ratio s a b) = false.
Proof.
  intros Ha Hb Hg.
  destruct (Z.eq_dec a 0) as [->|Na]; [reflexivity|].
  assert (Pa : 0 < a) by lia.
  assert (Hr : Py.of_ratio s a b
               = let '(q, e, l) := SFdiv_core_binary Py.prec Py.emax a 0 b 0 in
                 binary_round_aux Py.prec Py.emax s q e l)
    by (unfold Py.of_ratio; destruct a; [lia | reflexivity | reflexivity]).
  rewrite Hr; clear Hr.
  pose proof (float_of_int_digits a g Hg) as D1024.
  destruct (Zdigits2_bounds a Pa) as [[La Ua] D1].
  destruct (Zdigits2_bounds b Hb) as [[Lb Ub] D2].
  destruct (div_core_int a b Pa Hb) as (l & -> & Hl). cbv zeta in Hl |- *.
  set (d1 := Zdigits2 a) in *. set (d2 := Zdigits2 b) in *.
  set (e' := Z.min (fexp64 (d1 - d2)) 0) in *.
  assert (He : -1074 <= e' <= 0) by (subst e'; unfold fexp64; lia).
  set (sh := - e') in *.
  assert (P : 0 < 2 ^ sh) by (apply pow2_pos; lia).
  set (Q := a * 2 ^ sh / b).
  assert (NQ : 0 <= Q) by (apply Z.div_pos; nia).
  destruct (Z.eq_dec Q 0) as [->|NZ]; [apply binary_round_aux_zero; lia|].
  assert (PQ : 0 < Q) by lia.
  destruct (Z_le_gt_dec 54 d1) as [Big|Small];
    [destruct (Z.eq_dec b 1) as [B1|B1]|].
  - (* a large integer divided by one: the rounding of the integer itself *)
    subst b. simpl Zdigits2 in d2. subst d2.
    assert (E0 : e' = 0) by (subst e'; unfold fexp64; lia).
    assert (L0 : l = loc_Exact) by (apply Hl; [reflexivity | unfold fexp64; lia]).
    subst Q sh. rewrite E0, L0. simpl Z.opp. rewrite Z.pow_0_r, Z.mul_1_r, Z.div_1_r.
    rewrite float_of_int_infinity in Hg.
    destruct (is_infinity (binary_normalize Py.prec Py.emax a 0 false)) eqn:I; [discriminate|].
    destruct a as [|p|p]; try lia.
    unfold binary_normalize in I. rewrite binary_normalize_int in I. cbv zeta in I.
    destruct (shl_align_int p) as [A _]. rewrite (A ltac:(simpl in d1; subst d1; lia)) in I.
    simpl fst in I; simpl snd in I.
    destruct s; [rewrite is_infinity_sign|]; exact I.
  - (* a large integer divided by two or more *)
    destruct (binary_round_aux_spec s Q e' l PQ) as (m3 & e3 & -> & N3 & _ & Fin & _).
    rewrite assemble_infinity by exact N3.
    assert (HQ52 : 2 ^ 52 <= Q \/ e' = -1074).
    { destruct (Z.eq_dec e' (-1074)) as [|Ne]; [right; assumption|left].
      apply Z.div_le_lower_bound; [lia|].
      destruct (Z_le_gt_dec (fexp64 (d1 - d2)) 0) as [F|F].
      - assert (Es : sh = 53 + d2 - d1) by (subst sh e'; unfold fexp64 in *; lia).
        assert (2 ^ (d1 - 1) * 2 ^ sh = 2 ^ d2 * 2 ^ 52).
        { rewrite <- !Z.pow_add_r by lia. f_equal. lia. }
        nia.
      - assert (Es : sh = 0) by (subst sh e'; lia).
        rewrite Es, Z.pow_0_r, Z.mul_1_r.
        assert (2 ^ d2 * 2 ^ 52 <= 2 ^ (d1 - 1)).
        { rewrite <- Z.pow_add_r by lia. apply Z.pow_le_mono_r; unfold fexp64 in F; lia. }
        nia. }
    assert (HQup : Zdigits2 Q <= 1023 + sh).
    { apply Zdigits2_le; [exact PQ | lia |].
      apply Z.div_lt_upper_bound; [lia|].
      assert (2 ^ d1 <= 2 ^ 1024) by (apply Z.pow_le_mono_r; lia).
      assert (2 ^ (1023 + sh) * 2 = 2 ^ 1024 * 2 ^ sh).
      { rewrite (Z.pow_add_r 2 1023 sh) by lia. change (2 ^ 1024) with (2 ^ 1023 * 2). ring. }
      nia. }
    assert (e3 <= 971).
    { apply Fin; [|lia].
      destruct HQ52 as [H52|Em]; [|unfold fexp64; lia].
      pose proof (Zdigits2_gt Q 52 ltac:(lia) H52). unfold fexp64. lia. }
    apply andb_false_iff. right. apply Z.ltb_ge. lia.
  - (* an integer of at most 53 digits *)
    destruct (binary_round_aux_spec s Q e' l PQ) as (m3 & e3 & -> & N3 & _ & Fin & _).
    rewrite assemble_infinity by exact N3.
    assert (HQ52 : 2 ^ 52 <= Q \/ e' = -1074).
    { destruct (Z.eq_dec e' (-1074)) as [|Ne]; [right; assumption|left].
      apply Z.div_le_lower_bound; [lia|].
      assert (F : fexp64 (d1 - d2) <= 0) by (unfold fexp64; lia).
      assert (Es : sh = 53 + d2 - d1) by (subst sh e'; unfold fexp64 in *; lia).
      assert (2 ^ (d1 - 1) * 2 ^ sh = 2 ^ d2 * 2 ^ 52).
      { rewrite <- !Z.pow_add_r by lia. f_equal. lia. }
      nia. }
    assert (HQup : Zdigits2 Q <= 1023 + sh).
    { apply Zdigits2_le; [exact PQ | lia |].
      apply Z.div_lt_upper_bound; [lia|].
      assert (2 ^ d1 <= 2 ^ 1023) by (apply Z.pow_le_mono_r; lia).
      assert (2 ^ (1023 + sh) = 2 ^ 1023 * 2 ^ sh) by (apply Z.pow_add_r; lia).
      nia. }
    assert (e3 <= 971).
    { apply Fin; [|lia].
      destruct HQ52 as [H52|Em]; [|unfold fexp64; lia].
      pose proof (Zdigits2_gt Q 52 ltac:(lia) H52). unfold fexp64. lia. }
    apply andb_false_iff. right. apply Z.ltb_ge. lia.
Qed.

(** ** [CashCalculator.get_today_cash_remained] *)

(** The last part of the method, from the converted value on. *)
Lemma final_chain v label (w : world) :
  value
    ((if Py.gt v (Py.PInt 0) then
        t <- lift (Py.str (Py.round2 v)) ;;
        ret (Some ("На сегодня осталось " ++ t ++ " " ++ label)%string)
      else if Py.eq v (Py.PInt 0) then
        ret (Some "Денег нет, держись"%string)
      else if Py.lt v (Py.PInt 0) then
        s <- lift (Py.format_2f (Py.neg v)) ;;
        ret (Some ("Денег нет, держись:" ++ " твой долг - " ++ s ++ " " ++ label)%string)
      else ret None) w)
  = cash_message v label.
Proof.
  unfold cash_message. fold zero.
  destruct (Py.gt v zero).
  { unfold bind, lift, rmap, rbind.
    destruct (Py.str (Py.round2 v)); reflexivity. }
  destruct (Py.eq v zero); [reflexivity|].
  destruct (Py.lt v zero) eqn:L; [|reflexivity].
  rewrite <- (neg_abs v L). unfold bind, lift, rmap, rbind.
  destruct (Py.format_2f (Py.neg v)); reflexivity.
Qed.

Lemma value_bind {A B} (m : M A) (k : A -> M B) (w : world) :
  value (bind m k w)
  = match m w with
    | Return a w' => value (k a w')
    | Raise e _ => Err e
    end.
Proof. unfold bind. destruct (m w); reflexivity. Qed.

Lemma cash_usd self u e w :
  value (get_today_cash_remained self "usd" u e w)
  = rbind (remaining self w) (fun r =>
    rbind (Py.truediv r u) (fun v => cash_message v "USD")).
Proof.
  unfold get_today_cash_remained, remaining. rewrite value_bind.
  destruct (get_today_stats self w) as [stats w'|x w']; cbn [value rbind]; [|reflexivity].
  rewrite value_bind. unfold lift at 1.
  destruct (Py.sub (limit self) stats) as [r|x]; [|reflexivity].
  rewrite value_bind. cbn [String.eqb Ascii.eqb Bool.eqb rbind].
  unfold bind at 1. unfold lift at 1.
  destruct (Py.truediv r u) as [v|x]; [|reflexivity].
  cbn [ret rbind]. apply final_chain.
Qed.

Lemma cash_eur self u e w :
  value (get_today_cash_remained self "eur" u e w)
  = rbind (remaining self w) (fun r =>
    rbind (Py.truediv r e) (fun v => cash_message v "Euro")).
Proof.
  unfold get_today_cash_remained, remaining. rewrite value_bind.
  destruct (get_today_stats self w) as [stats w'|x w']; cbn [value rbind]; [|reflexivity].
  rewrite value_bind. unfold lift at 1.
  destruct (Py.sub (limit self) stats) as [r|x]; [|reflexivity].
  rewrite value_bind. cbn [String.eqb Ascii.eqb Bool.eqb rbind].
  unfold bind at 1. unfold lift at 1.
  destruct (Py.truediv r e) as [v|x]; [|reflexivity].
  cbn [ret rbind]. apply final_chain.
Qed.

(** Without conversion: the ruble branch and the branch-less fall-through. *)
Lemma cash_unconverted self currency label u e w :
  String.eqb currency "usd" = false ->
  String.eqb currency "eur" = false ->
  label = (if String.eqb currency "rub" then "руб" else currency)%string ->
  value (get_today_cash_remained self currency u e w)
  = rbind (remaining self w) (fun r => cash_message r label).
Proof.
  intros Hu He ->.
  unfold get_today_cash_remained, remaining. rewrite value_bind.
  destruct (get_today_stats self w) as [stats w'|x w']; cbn [value rbind]; [|reflexivity].
  rewrite value_bind. unfold lift at 1.
  destruct (Py.sub (limit self) stats) as [r|x]; [|reflexivity].
  rewrite value_bind. rewrite Hu, He. cbn [rbind].
  destruct (String.eqb currency "rub"); cbn [ret]; apply final_chain.
Qed.

Lemma steady_shows d n : clock_shows (steady d) n d.
Proof. intros i _. reflexivity. Qed.

(** C3, as the specification words it, fails: with the limit 1000 all spent
    the method returns its own fixed string, not the specification's, and
    with 200 left at 60 to the dollar its own sentence, not the
    specification's. *)
Lemma get_today_cash_remained_text_differs :
  value (get_today_cash_remained_call (spent_today 1000 [1000]) "usd" None None
           (steady march10))
  = Ok (Some "Денег нет, держись"%string)
  /\ value (get_today_cash_remained_call (spent_today 1000 [1000]) "usd" None None
              (steady march10))
     <> Ok (Some spec_no_money)
  /\ value (get_today_cash_remained_call (spent_today 1000 [800]) "usd"
              (Some (Py.PInt 60)) None (steady march10))
     <> Ok (Some (spec_may_spend "3.33" "USD")).
Proof. split; [|split]; vm_compute; [reflexivity | discriminate | discriminate]. Qed.

Lemma cash_message_reports v label : reports (cash_message v label) v label.
Proof.
  unfold reports, cash_message.
  destruct (sign_cases v) as [(G & E & L & _)|[(G & E & L & _)|[(G & E & L & _)|(G & E & L & _)]]];
    rewrite ?G, ?E, ?L; repeat split; intros; try discriminate; reflexivity.
Qed.

(** C3 (amended).  With [remaining = limit - get_today_stats()], the
    currency ["usd"] divides [remaining] by [USD_RATE] (60.0 unless given)
    and shows it as [USD], ["eur"] divides it by [EURO_RATE] (70.0 unless
    given) and shows it as [Euro]; the value [v] so obtained gives, when
    [v > 0], the text [На сегодня осталось {round(v, 2)} {label}], when
    [v == 0], the fixed text [Денег нет, держись], and when [v < 0], the
    text [Денег нет, держись: твой долг - {abs(v):.2f} {label}]. *)
Theorem get_today_cash_remained_report
    (self : Calculator) (w : world) (usd_rate euro_rate : Py.num) :
  value (get_today_cash_remained self "usd" usd_rate euro_rate w)
  = rbind (remaining self w) (fun r =>
    rbind (Py.truediv r usd_rate) (fun v => cash_message v "USD"))
  /\ value (get_today_cash_remained self "eur" usd_rate euro_rate w)
     = rbind (remaining self w) (fun r =>
       rbind (Py.truediv r euro_rate) (fun v => cash_message v "Euro"))
  /\ (forall r v, remaining self w = Ok r -> Py.truediv r usd_rate = Ok v ->
      reports (value (get_today_cash_remained self "usd" usd_rate euro_rate w))
              v "USD")
  /\ (forall r v, remaining self w = Ok r -> Py.truediv r euro_rate = Ok v ->
      reports (value (get_today_cash_remained self "eur" usd_rate euro_rate w))
              v "Euro")
  /\ (forall currency,
      get_today_cash_remained_call self currency None None w
      = get_today_cash_remained self currency USD_RATE EURO_RATE w)
  /\ Py.str USD_RATE = Ok "60.0"%string
  /\ Py.str EURO_RATE = Ok "70.0"%string.
Proof.
  split; [apply cash_usd|]. split; [apply cash_eur|].
  split; [|split; [|repeat split]].
  - intros r v Hr Hv. rewrite cash_usd, Hr. cbn [rbind]. rewrite Hv. cbn [rbind].
    apply cash_message_reports.
  - intros r v Hr Hv. rewrite cash_eur, Hr. cbn [rbind]. rewrite Hv. cbn [rbind].
    apply cash_message_reports.
Qed.

(** The three examples of the specification: 200 left of 1000 at 60 to the
    dollar, nothing left, and 200 overspent at 70 to the euro. *)
Lemma get_today_cash_remained_report_witness :
  value (get_today_cash_remained (spent_today 1000 [800]) "usd" (Py.PInt 60)
           EURO_RATE (steady march10))
  = Ok (Some "На сегодня осталось 3.33 USD"%string)
  /\ value (get_today_cash_remained (spent_today 1000 [1000]) "eur" USD_RATE
              EURO_RATE (steady march10))
     = Ok (Some "Денег нет, держись"%string)
  /\ value (get_today_cash_remained (spent_today 1000 [1200]) "eur" USD_RATE
              EURO_RATE (steady march10))
     = Ok (Some "Денег нет, держись: твой долг - 2.86 Euro"%string).
Proof.
  split; [|split].
  - destruct (Py.truediv (Py.PInt 200) (Py.PInt 60)) as [v|x] eqn:D;
      [|vm_compute in D; discriminate].
    destruct (get_today_cash_remained_report (spent_today 1000 [800])
                (steady march10) (Py.PInt 60) EURO_RATE)
      as (_ & _ & Husd & _).
    destruct (Husd (Py.PInt 200) v eq_refl D) as (Hgt & _ & _).
    vm_compute in D. injection D as <-.
    rewrite Hgt; vm_compute; reflexivity.
  - destruct (Py.truediv (Py.PInt 0) EURO_RATE) as [v|x] eqn:D;
      [|vm_compute in D; discriminate].
    destruct (get_today_cash_remained_report (spent_today 1000 [1000])
                (steady march10) USD_RATE EURO_RATE)
      as (_ & _ & _ & Heur & _).
    destruct (Heur (Py.PInt 0) v eq_refl D) as (_ & Heq & _).
    vm_compute in D. injection D as <-.
    rewrite Heq; vm_compute; reflexivity.
  - destruct (Py.truediv (Py.PInt (-200)) EURO_RATE) as [v|x] eqn:D;
      [|vm_compute in D; discriminate].
    destruct (get_today_cash_remained_report (spent_today 1000 [1200])
                (steady march10) USD_RATE EURO_RATE)
      as (_ & _ & _ & Heur & _).
    destruct (Heur (Py.PInt (-200)) v eq_refl D) as (_ & _ & Hlt).
    vm_compute in D. injection D as <-.
    rewrite Hlt; vm_compute; reflexivity.
Defined.

(** C4.  With the currency ["rub"] nothing is divided: the message is the
    one for [limit - get_today_stats()] itself under the label [руб],
    whatever the two rates are. *)
Theorem get_today_cash_remained_rub
    (self : Calculator) (w : world) (usd_rate euro_rate : Py.num) :
  value (get_today_cash_remained self "rub" usd_rate euro_rate w)
  = rbind (remaining self w) (fun r => cash_message r "руб")
  /\ (forall usd_rate' euro_rate',
      value (get_today_cash_remained self "rub" usd_rate' euro_rate' w)
      = value (get_today_cash_remained self "rub" usd_rate euro_rate w)).
Proof.
  split; [|intros u' e'];
    rewrite !(cash_unconverted self "rub" "руб"); reflexivity.
Qed.

Lemma neq_eqb_false (a b : string) : a <> b -> String.eqb a b = false.
Proof. intros H. apply String.eqb_neq. exact H. Qed.

(** The limit on digits, in one test. *)
Lemma too_long_spec z : Py.too_long z = (10 ^ Py.max_str_digits <=? Z.abs z).
Proof.
  unfold Py.too_long.
  destruct (10 ^ Py.max_str_digits <=? Z.abs z) eqn:E; [|apply andb_false_r].
  apply Z.leb_le in E. rewrite andb_true_r. apply Z.leb_le.
  apply Z.le_trans with (Z.log2 (10 ^ Py.max_str_digits)).
  - vm_compute. discriminate.
  - apply Z.log2_le_mono. exact E.
Qed.

(** An [int] that converts to a float is far from the limit on digits:
    every number in the double range has a text, and so has what
    [round(x, 2)] makes of it. *)
Lemma str_in_range v :
  in_double_range v = true -> exists t, Py.str v = Ok t.
Proof.
  destruct v as [z|f]; [|intros _; eexists; reflexivity].
  unfold in_double_range. simpl Py.to_double. intros R.
  destruct (Py.float_of_int z) as [g|] eqn:G; [|discriminate].
  pose proof (float_of_int_digits z g G) as D.
  assert (L : Z.log2 (Z.abs z) < 1024).
  { destruct (Z.eq_dec z 0) as [->|NZ]; [reflexivity|].
    apply Z.log2_lt_pow2; [lia|].
    assert (Zdigits2 (Z.abs z) = Zdigits2 z) by (destruct z; reflexivity).
    destruct (Zdigits2_bounds (Z.abs z) ltac:(lia)) as [[_ U] _].
    apply Z.lt_le_trans with (1 := U). apply Z.pow_le_mono_r; lia. }
  unfold Py.str, Py.str_int, Py.too_long.
  replace (14283 <=? Z.log2 (Z.abs z)) with false by (symmetry; apply Z.leb_gt; lia).
  eexists; reflexivity.
Qed.

Lemma str_round2_in_range v :
  in_double_range v = true -> exists t, Py.str (Py.round2 v) = Ok t.
Proof.
  destruct v as [z|f].
  - apply str_in_range.
  - intros _. destruct f; eexists; reflexivity.
Qed.

(** A value in the double range that is not a NaN always has a message. *)
Lemma cash_message_total v label :
  in_double_range v = true -> is_nan v = false ->
  exists msg, cash_message v label = Ok (Some msg).
Proof.
  intros R N. unfold cash_message.
  destruct (sign_cases v) as [(G & E & L & _)|[(G & E & L & _)|[(G & E & L & _)|(G & E & L & X)]]];
    rewrite ?G, ?E, ?L.
  - destruct (str_round2_in_range v R) as [t ->]. eexists; reflexivity.
  - eexists; reflexivity.
  - rewrite <- (neg_abs v L).
    pose proof (in_double_range_neg v R) as R'.
    unfold in_double_range in R'. unfold Py.format_2f, rmap, rbind.
    destruct (Py.to_double (Py.neg v)); [|discriminate].
    eexists; reflexivity.
  - rewrite X in N. discriminate.
Qed.

(** C6, as the specification words it, fails: an unknown currency with a
    debt too large for a float raises [OverflowError]. *)
Lemma get_today_cash_remained_other_raises :
  value (get_today_cash_remained_call
           (Calculator_init (Py.PInt (- 10 ^ 400))) "gbp" None None (steady march10))
  = Err OverflowError.
Proof. vm_compute. reflexivity. Qed.

(** C6 (amended).  A currency other than ["usd"], ["eur"] and ["rub"]
    (compared as written) converts nothing and stays the label: the outcome
    is that of the message for [limit - get_today_stats()] under the
    currency text itself, whatever the rates.  When that value is a float
    other than NaN, or an [int] in the double range, the call raises
    nothing and returns a message. *)
Theorem get_today_cash_remained_other
    (self : Calculator) (w : world) (currency : string) (usd_rate euro_rate : Py.num) :
  currency <> "usd"%string -> currency <> "eur"%string -> currency <> "rub"%string ->
  value (get_today_cash_remained self currency usd_rate euro_rate w)
  = rbind (remaining self w) (fun r => cash_message r currency)
  /\ (forall r, remaining self w = Ok r ->
      in_double_range r = true -> is_nan r = false ->
      exists msg,
        value (get_today_cash_remained self currency usd_rate euro_rate w)
        = Ok (Some msg)).
Proof.
  intros Hu He Hr.
  assert (H : value (get_today_cash_remained self currency usd_rate euro_rate w)
              = rbind (remaining self w) (fun r => cash_message r currency)).
  { apply cash_unconverted; [apply neq_eqb_false, Hu | apply neq_eqb_false, He |].
    rewrite (neq_eqb_false _ _ Hr). reflexivity. }
  split; [exact H|].
  intros r Hrem R N. rewrite H, Hrem. simpl. apply cash_message_total; assumption.
Qed.

(** ** [CaloriesCalculator.get_calories_remained] *)

(** C7, as the specification words it, fails: the two texts returned are
    not the specification's. *)
Lemma get_calories_remained_text_differs :
  value (get_calories_remained (spent_today 2000 [500]) (steady march10))
  <> Ok (spec_may_eat "1500")
  /\ value (get_calories_remained (spent_today 2000 [2000]) (steady march10))
     <> Ok spec_stop_eating.
Proof. split; vm_compute; discriminate. Qed.

(** C7 (amended).  With [remaining = limit - get_today_stats()], nothing
    converted, [get_calories_remained()] returns the text
    [Сегодня можно съесть что-нибудь ещё, но с общей калорийностью не более {remaining} кКал]
    when [remaining > 0], [{remaining}] being [str(remaining)], and the
    fixed text [Хватит есть!] otherwise. *)
Theorem get_calories_remained_message (self : Calculator) (w : world) :
  value (get_calories_remained self w)
  = rbind (remaining self w) (fun x =>
    if Py.gt x zero then
      rmap (fun t =>
              ("Сегодня можно съесть что-нибудь ещё, но с общей калорийностью не более "
               ++ t ++ " кКал")%string)
           (Py.str x)
    else Ok "Хватит есть!"%string)
  /\ (forall x, remaining self w = Ok x ->
      (Py.gt x zero = true ->
       forall t, Py.str x = Ok t ->
       value (get_calories_remained self w)
       = Ok ("Сегодня можно съесть что-нибудь ещё, но с общей калорийностью не более "
             ++ t ++ " кКал")%string)
      /\ (Py.gt x zero = false ->
          value (get_calories_remained self w) = Ok "Хватит есть!"%string)).
Proof.
  assert (H : value (get_calories_remained self w)
    = rbind (remaining self w) (fun x =>
      if Py.gt x zero then
        rmap (fun t =>
                ("Сегодня можно съесть что-нибудь ещё, но с общей калорийностью не более "
                 ++ t ++ " кКал")%string)
             (Py.str x)
      else Ok "Хватит есть!"%string)).
  { unfold get_calories_remained, remaining. rewrite value_bind.
    destruct (get_today_stats self w) as [stats w'|e w']; cbn [value rbind];
      [|reflexivity].
    rewrite value_bind. unfold lift at 1.
    destruct (Py.sub (limit self) stats) as [x|e]; [|reflexivity].
    cbn [rbind]. fold zero. destruct (Py.gt x zero); [|reflexivity].
    unfold bind, lift, rmap, rbind. destruct (Py.str x); reflexivity. }
  split; [exact H|].
  intros x Hx. rewrite H, Hx. cbn [rbind].
  split.
  - intros -> t ->. reflexivity.
  - intros ->. reflexivity.
Qed.

(** The example of the specification: 500 of 2000 eaten, then all of it. *)
Lemma get_calories_remained_message_witness :
  value (get_calories_remained (spent_today 2000 [500]) (steady march10))
  = Ok ("Сегодня можно съесть что-нибудь ещё, но с общей калорийностью не более "
        ++ "1500" ++ " кКал")%string
  /\ value (get_calories_remained (spent_today 2000 [2000]) (steady march10))
     = Ok "Хватит есть!"%string.
Proof.
  split.
  - exact (proj1 (proj2 (get_calories_remained_message (spent_today 2000 [500])
                           (steady march10)) (Py.PInt 1500) eq_refl) eq_refl
             "1500"%string eq_refl).
  - exact (proj2 (proj2 (get_calories_remained_message (spent_today 2000 [2000])
                           (steady march10)) (Py.PInt 0) eq_refl) eq_refl).
Defined.

(** ** Division in [get_today_cash_remained] *)

Lemma in_double_range_abs a :
  in_double_range (Py.PInt a) = true ->
  exists g, Py.float_of_int (Z.abs a) = Ok g.
Proof.
  unfold in_double_range. simpl Py.to_double. intros H.
  assert (K : is_ok (Py.float_of_int (Z.abs a)) = true).
  { destruct (Z_le_gt_dec 0 a) as [P|N].
    - rewrite Z.abs_eq by exact P. exact H.
    - rewrite Z.abs_neq by lia. rewrite float_of_int_opp. exact H. }
  destruct (Py.float_of_int (Z.abs a)) as [g|]; [exists g; reflexivity | discriminate].
Qed.

Lemma eq_zero_int b : Py.eq (Py.PInt b) zero = (b =? 0).
Proof.
  unfold Py.eq, zero. simpl. destruct (Z.compare_spec b 0) as [->| |];
    [reflexivity | symmetry; apply Z.eqb_neq; lia | symmetry; apply Z.eqb_neq; lia].
Qed.

Lemma eq_zero_float g : Py.eq (Py.PFloat g) zero = Py.is_zero g.
Proof.
  unfold Py.eq, zero. destruct g as [s|s| |s m e]; try reflexivity.
  - destruct s; reflexivity.
  - unfold Py.compare. rewrite cmp_zero_finite. destruct s; reflexivity.
Qed.



(** A nonzero divisor, both operands in the double range: a float. *)
Lemma truediv_in_range r q :
  in_double_range r = true -> in_double_range q = true ->
  Py.eq q zero = false ->
  exists v, Py.truediv r q = Ok (Py.PFloat v).
Proof.
  intros R Q Z.
  destruct r as [a|f], q as [b|g].
  - rewrite eq_zero_int in Z. simpl. rewrite Z.
    destruct (in_double_range_abs a R) as [ga Ha].
    apply Z.eqb_neq in Z.
    pose proof (of_ratio_finite (xorb (a <? 0) (b <? 0)) (Z.abs a) (Z.abs b) ga
                  ltac:(lia) ltac:(lia) Ha) as I.
    destruct (Py.of_ratio _ _ _); try discriminate; eexists; reflexivity.
  - rewrite eq_zero_float in Z. unfold in_double_range in R. simpl in R |- *.
    destruct (Py.float_of_int a); [|discriminate]. simpl. rewrite Z.
    eexists; reflexivity.
  - rewrite eq_zero_int in Z. apply Z.eqb_neq in Z.
    unfold in_double_range in Q. simpl in Q |- *.
    destruct (Py.float_of_int b) as [g|x] eqn:B; [|discriminate]. simpl.
    rewrite (float_of_int_nonzero b g Z B). eexists; reflexivity.
  - rewrite eq_zero_float in Z. simpl. rewrite Z. eexists; reflexivity.
Qed.




(** ** Worked examples *)


(** On 10 March: a record of 4 March counts, one of 3 March and one of
    11 March do not. *)
Lemma get_week_stats_window_witness :
  value (get_week_stats
           (add_record (spent_today 1000 [300]) (dated_record 70 (mkdate 2024 3 4)))
           (steady march10))
  = Ok (Py.PInt 370)
  /\ value (get_week_stats
              (add_record (spent_today 1000 [300]) (dated_record 70 (mkdate 2024 3 3)))
              (steady march10))
     = Ok (Py.PInt 300)
  /\ value (get_week_stats
              (add_record (spent_today 1000 [300]) (dated_record 70 (mkdate 2024 3 11)))
              (steady march10))
     = Ok (Py.PInt 300).
Proof.
  destruct (get_week_stats_window (spent_today 1000 [300]) (steady march10))
    as (Hsum & _ & H6 & H7 & Hfut).
  split; [|split].
  - rewrite (H6 (dated_record 70 (mkdate 2024 3 4)) eq_refl). rewrite Hsum. reflexivity.
  - rewrite (H7 (dated_record 70 (mkdate 2024 3 3)) eq_refl). exact Hsum.
  - rewrite (Hfut (dated_record 70 (mkdate 2024 3 11)) eq_refl eq_refl eq_refl).
    exact Hsum.
Defined.

(** A well-formed date text and a malformed one. *)
Lemma Record_date_resolution_witness :
  Record_new (Py.PInt 145) "кофе" (Some "08.03.2024"%string) (steady march10)
  = Return (mkRecord (Py.PInt 145) (mkdate 2024 3 8) "кофе") (steady march10)
  /\ Record_new (Py.PInt 145) "кофе" (Some "2024-03-08"%string) (steady march10)
     = Raise ValueError (steady march10)
  /\ Record_new (Py.PInt 145) "кофе" (Some (text_dmY (mkdate 2024 2 29)))
       (steady march10)
     = Return (mkRecord (Py.PInt 145) (mkdate 2024 2 29) "кофе") (steady march10).
Proof.
  destruct (Record_date_resolution (Py.PInt 145) "кофе" (steady march10))
    as (_ & Hok & Htext & Herr).
  split; [|split].
  - exact (proj2 (Hok "08.03.2024"%string (mkdatetime (mkdate 2024 3 8) 0 0 0 0)
                    ltac:(discriminate) eq_refl)).
  - exact (proj2 (Herr "2024-03-08"%string ValueError ltac:(discriminate) eq_refl)).
  - exact (Htext (mkdate 2024 2 29) eq_refl).
Defined.

(** An unknown currency in capitals, with money left and with a debt. *)
Lemma get_today_cash_remained_other_witness :
  value (get_today_cash_remained (spent_today 1000 [1200]) "Eur" USD_RATE EURO_RATE
           (steady march10))
  = Ok (Some "Денег нет, держись: твой долг - 200.00 Eur"%string)
  /\ exists msg,
       value (get_today_cash_remained (spent_today 1000 [1200]) "Eur" USD_RATE
                EURO_RATE (steady march10))
       = Ok (Some msg).
Proof.
  destruct (get_today_cash_remained_other (spent_today 1000 [1200]) (steady march10)
              "Eur" USD_RATE EURO_RATE
              ltac:(discriminate) ltac:(discriminate) ltac:(discriminate))
    as (Hmsg & Htotal).
  split.
  - rewrite Hmsg. vm_compute. reflexivity.
  - exact (Htotal (Py.PInt (-200)) eq_refl eq_refl eq_refl).
Defined.

(** ** Further properties *)

(** The loop of [get_today_stats] under any clock. *)
Lemma today_loop_counted rs :
  forall acc w,
    value (today_loop rs acc w)
    = py_sum_from acc (map amount (counted (clock w) (reads w) rs)).
Proof.
  induction rs as [|r rs IH]; intros acc w; [reflexivity|].
  cbn [today_loop counted]. rewrite value_bind. unfold datetime_now.
  destruct (date_eqb (date r) (date_of (clock w (reads w)))).
  - rewrite value_bind. unfold lift. cbn [map py_sum_from].
    destruct (Py.add acc (amount r)) as [s|e]; [|reflexivity].
    cbn [rbind]. apply (IH s (mkworld (clock w) (S (reads w)))).
  - apply (IH acc (mkworld (clock w) (S (reads w)))).
Qed.

(** The clock is read once per record, not once per call:
    [get_today_stats] returns the sum over the records whose date is the
    day shown by the reading made for them.  A call that starts just before
    midnight and ends after it can so add a record of the old day to a
    record of the new day, which is the sum for neither day. *)
Theorem get_today_stats_per_reading (self : Calculator) (w : world) :
  value (get_today_stats self w)
  = py_sum (map amount (counted (clock w) (reads w) (records self)))
  /\ (value (get_today_stats two_days across_midnight) = Ok (Py.PInt 12)
      /\ py_sum (map amount (filter (dated march10) (records two_days)))
         = Ok (Py.PInt 5)
      /\ py_sum (map amount (filter (dated (mkdate 2024 3 11)) (records two_days)))
         = Ok (Py.PInt 7)).
Proof. split; [apply today_loop_counted | repeat split]. Qed.

Lemma truediv_nan r q :
  is_nan r = true -> in_double_range q = true -> Py.eq q zero = false ->
  Py.truediv r q = Ok (Py.PFloat S754_nan).
Proof.
  intros N R Z. destruct r as [a|[| | |]]; try discriminate.
  destruct q as [b|g].
  - rewrite eq_zero_int in Z. apply Z.eqb_neq in Z.
    unfold in_double_range in R. cbn [Py.truediv Py.to_double rbind] in R |- *.
    destruct (Py.float_of_int b) as [g|x] eqn:B; [|discriminate]. cbn [rbind].
    rewrite (float_of_int_nonzero b g Z B). reflexivity.
  - rewrite eq_zero_float in Z. cbn [Py.truediv Py.to_double rbind]. rewrite Z.
    reflexivity.
Qed.

(** When [limit - get_today_stats()] is a NaN (a limit that is one, or an
    infinite limit less an infinite amount), none of [> 0], [== 0], [< 0]
    holds and the method returns [None], no text, whatever the currency,
    the rates being in the double range and not zero. *)
Theorem get_today_cash_remained_nan
    (self : Calculator) (w : world) (r : Py.num) (currency : string)
    (usd_rate euro_rate : Py.num) :
  remaining self w = Ok r -> is_nan r = true ->
  in_double_range usd_rate = true -> Py.eq usd_rate zero = false ->
  in_double_range euro_rate = true -> Py.eq euro_rate zero = false ->
  value (get_today_cash_remained self currency usd_rate euro_rate w) = Ok None.
Proof.
  intros Hr N Ru Zu Re Ze.
  destruct (String.eqb currency "usd") eqn:Hu.
  { apply String.eqb_eq in Hu. subst currency.
    rewrite cash_usd, Hr. cbn [rbind]. rewrite (truediv_nan r usd_rate N Ru Zu).
    reflexivity. }
  destruct (String.eqb currency "eur") eqn:He.
  { apply String.eqb_eq in He. subst currency.
    rewrite cash_eur, Hr. cbn [rbind]. rewrite (truediv_nan r euro_rate N Re Ze).
    reflexivity. }
  rewrite (cash_unconverted self currency _ usd_rate euro_rate w Hu He eq_refl), Hr.
  cbn [rbind]. destruct r as [a|[| | |]]; try discriminate. reflexivity.
Qed.

Lemma get_today_cash_remained_nan_witness :
  value (get_today_cash_remained
           (add_record (Calculator_init (Py.PFloat (S754_infinity false)))
              (mkRecord (Py.PFloat (S754_infinity false)) march10 EmptyString))
           "usd" USD_RATE EURO_RATE (steady march10))
  = Ok None.
Proof.
  exact (get_today_cash_remained_nan
           (add_record (Calculator_init (Py.PFloat (S754_infinity false)))
              (mkRecord (Py.PFloat (S754_infinity false)) march10 EmptyString))
           (steady march10) (Py.PFloat S754_nan) "usd" USD_RATE EURO_RATE
           eq_refl eq_refl eq_refl eq_refl eq_refl eq_refl).
Defined.

(** The order of valid dates, compared field by field as Python does, is
    the order of their ordinals; in particular two valid dates with the
    same ordinal are the same date. *)
Theorem date_order_is_ordinal_order (d1 d2 : Datetime.date) :
  valid_date d1 = true -> valid_date d2 = true ->
  (date_ltb d1 d2 = true <-> toordinal d1 < toordinal d2)
  /\ (d1 = d2 <-> days_between d1 d2 = 0).
Proof.
  intros V1 V2.
  assert (T : date_ltb d1 d2 = true \/ d1 = d2 \/ date_ltb d2 d1 = true).
  { destruct d1 as [y1 m1 a1], d2 as [y2 m2 a2]. unfold date_ltb. cbv [year month day].
    destruct (Z.lt_trichotomy y1 y2) as [|[->|]];
      [left; apply orb_true_iff; left; apply Z.ltb_lt; assumption | |
       right; right; apply orb_true_iff; left; apply Z.ltb_lt; assumption].
    rewrite !Z.eqb_refl, !Z.ltb_irrefl. cbn [orb andb].
    destruct (Z.lt_trichotomy m1 m2) as [|[->|]];
      [left; apply orb_true_iff; left; apply Z.ltb_lt; assumption | |
       right; right; apply orb_true_iff; left; apply Z.ltb_lt; assumption].
    rewrite !Z.eqb_refl, !Z.ltb_irrefl. cbn [orb andb].
    destruct (Z.lt_trichotomy a1 a2) as [|[->|]];
      [left; apply Z.ltb_lt; assumption | right; left; reflexivity |
       right; right; apply Z.ltb_lt; assumption]. }
  unfold days_between. split; split.
  - apply toordinal_lt; assumption.
  - intros H. destruct T as [L|[E|G]]; [exact L | subst; lia |].
    pose proof (toordinal_lt d2 d1 V2 V1 G). lia.
  - intros ->. lia.
  - intros H. destruct T as [L|[E|G]]; [|exact E|].
    + pose proof (toordinal_lt d1 d2 V1 V2 L). lia.
    + pose proof (toordinal_lt d2 d1 V2 V1 G). lia.
Qed.

Lemma date_order_is_ordinal_order_witness :
  (date_ltb (mkdate 2024 2 29) (mkdate 2024 3 1) = true
   <-> toordinal (mkdate 2024 2 29) < toordinal (mkdate 2024 3 1))
  /\ (mkdate 2024 2 29 = mkdate 2024 3 1
      <-> days_between (mkdate 2024 2 29) (mkdate 2024 3 1) = 0).
Proof.
  exact (date_order_is_ordinal_order (mkdate 2024 2 29) (mkdate 2024 3 1) eq_refl eq_refl).
Defined.

(** True division of two numbers in the double range by a divisor other
    than zero always gives a float: no [int / int] overflows when the
    dividend converts to a float. *)
Theorem truediv_total_in_range (x y : Py.num) :
  in_double_range x = true -> in_double_range y = true -> Py.eq y zero = false ->
  exists v, Py.truediv x y = Ok (Py.PFloat v).
Proof. apply truediv_in_range. Qed.

Lemma truediv_total_in_range_witness :
  exists v, Py.truediv (Py.PInt 200) (Py.PInt 70) = Ok (Py.PFloat v).
Proof.
  exact (truediv_total_in_range (Py.PInt 200) (Py.PInt 70) eq_refl eq_refl eq_refl).
Defined.

(** ** Readings of the clock *)

Lemma week_loop_world today rs :
  forall acc w, world_after (week_loop today rs acc w) = w.
Proof.
  induction rs as [|r rs IH]; intros acc w; [reflexivity|].
  cbn [week_loop].
  destruct ((days_between today (date r) <? 7) && (days_between today (date r) >=? 0)).
  - unfold bind, lift. destruct (Py.add acc (amount r)) as [s|e]; [apply IH | reflexivity].
  - apply IH.
Qed.

Lemma today_loop_world rs :
  forall acc w,
    let w' := world_after (today_loop rs acc w) in
    clock w' = clock w
    /\ (reads w <= reads w' <= reads w + List.length rs)%nat
    /\ (rs <> [] -> (reads w < reads w')%nat)
    /\ (is_ok (value (today_loop rs acc w)) = true ->
        reads w' = (reads w + List.length rs)%nat).
Proof.
  induction rs as [|r rs IH]; intros acc w; cbv zeta.
  - cbn. repeat split; try lia. intros N. elim N. reflexivity.
  - set (w1 := mkworld (clock w) (S (reads w))).
    assert (Eq : today_loop (r :: rs) acc w
                 = if date_eqb (date r) (date_of (clock w (reads w)))
                   then bind (lift (Py.add acc (amount r))) (today_loop rs) w1
                   else today_loop rs acc w1).
    { cbn [today_loop]. unfold bind at 1. unfold datetime_now.
      destruct (date_eqb (date r) (date_of (clock w (reads w)))); reflexivity. }
    rewrite Eq; clear Eq. cbn [List.length].
    assert (G : forall a,
              let w' := world_after (today_loop rs a w1) in
              clock w' = clock w
              /\ (reads w <= reads w' <= reads w + S (List.length rs))%nat
              /\ (r :: rs <> [] -> (reads w < reads w')%nat)
              /\ (is_ok (value (today_loop rs a w1)) = true ->
                  reads w' = (reads w + S (List.length rs))%nat)).
    { intros a. destruct (IH a w1) as (C & B & _ & E). cbv zeta.
      cbn [clock reads w1] in C, B, E.
      split; [exact C|]. split; [lia|]. split; [intros _; lia|].
      intros H. rewrite (E H). lia. }
    destruct (date_eqb (date r) (date_of (clock w (reads w)))); [|apply G].
    unfold bind, lift. destruct (Py.add acc (amount r)) as [s|e]; [apply G|].
    cbn [world_after value is_ok w1 clock reads].
    split; [reflexivity|]. split; [lia|]. split; [intros _; lia | discriminate].
Qed.

(** [get_week_stats] reads the clock exactly once, whether it returns or
    raises.  [get_today_stats] reads it at least once when there is a
    record and at most once per record, and exactly once per record when it
    returns; neither changes what the clock will show. *)
Theorem Calculator_clock_readings (self : Calculator) (w : world) :
  world_after (get_week_stats self w) = mkworld (clock w) (S (reads w))
  /\ clock (world_after (get_today_stats self w)) = clock w
  /\ (reads (world_after (get_today_stats self w))
      <= reads w + List.length (records self))%nat
  /\ (records self <> [] -> (reads w < reads (world_after (get_today_stats self w)))%nat)
  /\ (is_ok (value (get_today_stats self w)) = true ->
      reads (world_after (get_today_stats self w))
      = (reads w + List.length (records self))%nat).
Proof.
  split.
  - unfold get_week_stats, bind, datetime_now. apply week_loop_world.
  - destruct (today_loop_world (records self) (Py.PInt 0) w) as (C & B & N & E).
    fold (get_today_stats self) in C, B, N, E.
    split; [exact C|]. split; [lia|]. split; [exact N | exact E].
Qed.

Lemma world_after_bind {A B} (m : M A) (k : A -> M B) (w : world) :
  world_after (bind m k w)
  = match m w with
    | Return a w' => world_after (k a w')
    | Raise _ w' => w'
    end.
Proof. unfold bind. destruct (m w); reflexivity. Qed.

Lemma world_after_lift {A B} (r : result A) (k : A -> M B) (w : world) :
  (forall a, world_after (k a w) = w) ->
  world_after (bind (lift r) k w) = w.
Proof. intros H. unfold bind, lift. destruct r; [apply H | reflexivity]. Qed.

(** The two reporting methods read the clock through [get_today_stats]
    only: after either of them the clock is where [get_today_stats] alone
    leaves it, whatever is returned or raised. *)
Theorem reports_clock_readings
    (self : Calculator) (currency : string) (usd_rate euro_rate : Py.num) (w : world) :
  world_after (get_calories_remained self w) = world_after (get_today_stats self w)
  /\ world_after (get_today_cash_remained self currency usd_rate euro_rate w)
     = world_after (get_today_stats self w).
Proof.
  split.
  - unfold get_calories_remained. rewrite world_after_bind.
    destruct (get_today_stats self w) as [stats w'|e w']; [|reflexivity].
    cbn [world_after]. apply world_after_lift. intros x.
    destruct (Py.gt x (Py.PInt 0)); [|reflexivity].
    apply world_after_lift. reflexivity.
  - unfold get_today_cash_remained. rewrite world_after_bind.
    destruct (get_today_stats self w) as [stats w'|e w']; [|reflexivity].
    cbn [world_after]. apply world_after_lift. intros r.
    assert (F : forall v label,
      world_after
        ((if Py.gt v (Py.PInt 0) then
            t <- lift (Py.str (Py.round2 v)) ;;
            ret (Some ("На сегодня осталось " ++ t ++ " " ++ label)%string)
          else if Py.eq v (Py.PInt 0) then
            ret (Some "Денег нет, держись"%string)
          else if Py.lt v (Py.PInt 0) then
            s <- lift (Py.format_2f (Py.neg v)) ;;
            ret (Some ("Денег нет, держись:" ++ " твой долг - " ++ s ++ " " ++ label)%string)
          else ret None) w') = w').
    { intros v label.
      destruct (Py.gt v (Py.PInt 0)); [apply world_after_lift; reflexivity|].
      destruct (Py.eq v (Py.PInt 0)); [reflexivity|].
      destruct (Py.lt v (Py.PInt 0)); [apply world_after_lift; reflexivity | reflexivity]. }
    rewrite world_after_bind.
    destruct (String.eqb currency "usd").
    { unfold bind at 1. unfold lift at 1.
      destruct (Py.truediv r usd_rate); [apply F | reflexivity]. }
    destruct (String.eqb currency "eur").
    { unfold bind at 1. unfold lift at 1.
      destruct (Py.truediv r euro_rate); [apply F | reflexivity]. }
    destruct (String.eqb currency "rub"); apply F.
Qed.

(** ** [add_record] followed by a sum *)

Lemma counted_snoc clk rs x :
  forall n,
    counted clk n (rs ++ [x])
    = counted clk n rs
      ++ (if date_eqb (date x) (date_of (clk (n + List.length rs)%nat)) then [x] else []).
Proof.
  induction rs as [|r rs IH]; intros n.
  - cbn. rewrite Nat.add_0_r. reflexivity.
  - change ((r :: rs) ++ [x]) with (r :: (rs ++ [x])).
    cbn [counted List.length]. rewrite (IH (S n)).
    replace (S n + List.length rs)%nat with (n + S (List.length rs))%nat by lia.
    destruct (date_eqb (date r) (date_of (clk n))); reflexivity.
Qed.

Lemma py_sum_snoc_if (c : bool) (xs : list PyRecord) (x : PyRecord) :
  py_sum (map amount (xs ++ (if c then [x] else [])))
  = rbind (py_sum (map amount xs))
          (fun s => if c then Py.add s (amount x) else Ok s).
Proof.
  unfold py_sum. destruct c.
  - rewrite map_app. apply py_sum_from_app.
  - rewrite app_nil_r. destruct (py_sum_from _ _); reflexivity.
Qed.

(** A record added last changes a sum by its own amount or not at all:
    [get_week_stats] after [add_record] is the sum before it plus the
    amount when the record is in the week window, and the sum before it
    otherwise; [get_today_stats] likewise, the record being compared with
    the clock reading made for it, the one after those of the records
    already there.  An error of the earlier sum stays. *)
Theorem add_record_then_stats (self : Calculator) (r : PyRecord) (w : world) :
  value (get_week_stats (add_record self r) w)
  = rbind (value (get_week_stats self w))
      (fun s => if in_week (date_of (clock w (reads w))) r
                then Py.add s (amount r) else Ok s)
  /\ value (get_today_stats (add_record self r) w)
     = rbind (value (get_today_stats self w))
         (fun s => if date_eqb (date r)
                        (date_of (clock w (reads w + List.length (records self))%nat))
                   then Py.add s (amount r) else Ok s).
Proof.
  split.
  - rewrite !get_week_stats_value. cbn [add_record records].
    rewrite filter_snoc. apply py_sum_snoc_if.
  - unfold get_today_stats. rewrite !today_loop_counted. cbn [add_record records].
    rewrite counted_snoc. apply py_sum_snoc_if.
Qed.

(** ** Sums of [int] amounts and of [float] amounts *)

Lemma py_sum_from_ints rs :
  forall acc,
    int_amounts rs = true ->
    py_sum_from (Py.PInt acc) (map amount rs) = Ok (Py.PInt (acc + total rs)).
Proof.
  induction rs as [|r rs IH]; intros acc H.
  - cbn. rewrite Z.add_0_r. reflexivity.
  - cbn [int_amounts forallb] in H. apply andb_true_iff in H. destruct H as [Hr Hrs].
    cbn [map py_sum_from total fold_right].
    destruct (amount r) as [z|f]; [|discriminate].
    cbn [Py.add rbind int_value]. rewrite (IH (acc + z) Hrs).
    unfold total. do 2 f_equal. lia.
Qed.

Lemma int_amounts_filter f rs :
  int_amounts rs = true -> int_amounts (filter f rs) = true.
Proof.
  induction rs as [|r rs IH]; [reflexivity|].
  cbn [int_amounts forallb filter]. intros H. apply andb_true_iff in H.
  destruct H as [Hr Hrs]. destruct (f r); [|apply IH, Hrs].
  cbn [forallb]. rewrite Hr. apply IH, Hrs.
Qed.

Lemma int_amounts_counted clk rs :
  forall n, int_amounts rs = true -> int_amounts (counted clk n rs) = true.
Proof.
  induction rs as [|r rs IH]; intros n; [reflexivity|].
  cbn [int_amounts forallb counted]. intros H. apply andb_true_iff in H.
  destruct H as [Hr Hrs].
  destruct (date_eqb (date r) (date_of (clk n))); [|apply IH, Hrs].
  cbn [int_amounts forallb]. rewrite Hr. apply IH, Hrs.
Qed.

(** With [int] amounts the two sums never raise and are exact: the [int]
    that is the sum, as integers, of the amounts of the records counted. *)
Theorem stats_of_int_amounts (self : Calculator) (w : world) :
  int_amounts (records self) = true ->
  value (get_week_stats self w)
  = Ok (Py.PInt (total (filter (in_week (date_of (clock w (reads w)))) (records self))))
  /\ value (get_today_stats self w)
     = Ok (Py.PInt (total (counted (clock w) (reads w) (records self)))).
Proof.
  intros H. split.
  - rewrite get_week_stats_value. unfold py_sum.
    rewrite py_sum_from_ints by (apply int_amounts_filter, H). reflexivity.
  - unfold get_today_stats. rewrite today_loop_counted.
    rewrite py_sum_from_ints by (apply int_amounts_counted, H). reflexivity.
Qed.

Lemma stats_of_int_amounts_witness :
  value (get_week_stats
           (add_record (spent_today 1000 [300; 500]) (dated_record 70 (mkdate 2024 3 3)))
           (steady march10))
  = Ok (Py.PInt 800)
  /\ value (get_today_stats
              (add_record (spent_today 1000 [300; 500]) (dated_record 70 (mkdate 2024 3 3)))
              (steady march10))
     = Ok (Py.PInt 800).
Proof.
  exact (stats_of_int_amounts
           (add_record (spent_today 1000 [300; 500]) (dated_record 70 (mkdate 2024 3 3)))
           (steady march10) eq_refl).
Defined.

Lemma int_amounts_perm rs rs' :
  Permutation rs rs' -> int_amounts rs = int_amounts rs'.
Proof.
  unfold int_amounts.
  induction 1 as [|x l l' _ IH|x y l|l l' l'' _ IH1 _ IH2]; cbn [forallb].
  - reflexivity.
  - rewrite IH. reflexivity.
  - destruct (is_int (amount x)), (is_int (amount y)); reflexivity.
  - rewrite IH1. exact IH2.
Qed.

Lemma total_filter_perm f rs rs' :
  Permutation rs rs' -> total (filter f rs) = total (filter f rs').
Proof.
  unfold total.
  induction 1 as [|x l l' _ IH|x y l|l l' l'' _ IH1 _ IH2]; cbn [filter].
  - reflexivity.
  - destruct (f x); cbn [map fold_right]; rewrite ?IH; reflexivity.
  - destruct (f x), (f y); cbn [map fold_right]; lia.
  - rewrite IH1. exact IH2.
Qed.

(** With [int] amounts the order in which the records were added does not
    matter to [get_week_stats], nor to [get_today_stats] while the clock
    stays on one day.  With [float] amounts it does: 0.1, 0.2 and 0.3 added
    in this order and in the opposite one give two different sums. *)
Theorem stats_any_order
    (l : Py.num) (rs rs' : list PyRecord) (w : world) (today : Datetime.date) :
  Permutation rs rs' -> int_amounts rs = true ->
  clock_shows w (List.length rs) today ->
  value (get_week_stats (mkCalculator l rs') w)
  = value (get_week_stats (mkCalculator l rs) w)
  /\ value (get_today_stats (mkCalculator l rs') w)
     = value (get_today_stats (mkCalculator l rs) w)
  /\ value (get_week_stats (mkCalculator l [tenths 1; tenths 2; tenths 3])
              (steady march10))
     <> value (get_week_stats (mkCalculator l [tenths 3; tenths 2; tenths 1])
                 (steady march10)).
Proof.
  intros P I C.
  assert (I' : int_amounts rs' = true) by (rewrite <- (int_amounts_perm _ _ P); exact I).
  assert (C' : clock_shows w (List.length rs') today)
    by (rewrite <- (Permutation_length P); exact C).
  split; [|split].
  - rewrite !get_week_stats_value. cbn [records]. unfold py_sum.
    rewrite !py_sum_from_ints by (apply int_amounts_filter; assumption).
    rewrite (total_filter_perm _ _ _ P). reflexivity.
  - unfold get_today_stats. cbn [records].
    rewrite (today_loop_value rs' _ w today C'), (today_loop_value rs _ w today C).
    rewrite !py_sum_from_ints by (apply int_amounts_filter; assumption).
    rewrite (total_filter_perm _ _ _ P). reflexivity.
  - rewrite !get_week_stats_value. vm_compute. discriminate.
Qed.

Lemma stats_any_order_witness :
  value (get_week_stats
           (mkCalculator (Py.PInt 1000) [dated_record 7 march10; dated_record 5 march10])
           (steady march10))
  = value (get_week_stats
             (mkCalculator (Py.PInt 1000) [dated_record 5 march10; dated_record 7 march10])
             (steady march10)).
Proof.
  exact (proj1 (stats_any_order (Py.PInt 1000)
                  [dated_record 5 march10; dated_record 7 march10]
                  [dated_record 7 march10; dated_record 5 march10]
                  (steady march10) march10
                  (perm_swap _ _ _) eq_refl (steady_shows march10 2))).
Defined.

Lemma dated_in_week today r : dated today r = true -> in_week today r = true.
Proof.
  unfold dated, in_week. intros H. apply date_eqb_eq in H.
  unfold days_between. rewrite H, Z.sub_diag. reflexivity.
Qed.

Lemma total_day_le_week today rs :
  nonneg_amounts rs = true ->
  0 <= total (filter (dated today) rs) <= total (filter (in_week today) rs).
Proof.
  unfold total.
  induction rs as [|r rs IH]; [cbn; lia|].
  cbn [nonneg_amounts forallb filter]. intros H. apply andb_true_iff in H.
  destruct H as [Hr Hrs]. apply Z.leb_le in Hr. specialize (IH Hrs).
  destruct (dated today r) eqn:D.
  - rewrite (dated_in_week today r D). cbn [map fold_right]. lia.
  - destruct (in_week today r); cbn [map fold_right]; lia.
Qed.

(** The day is part of its week: while the clock stays on one day, with
    [int] amounts none of which is below zero, what [get_today_stats]
    returns is at most what [get_week_stats] returns, and not below zero. *)
Theorem today_within_week (self : Calculator) (w : world) (today : Datetime.date) :
  clock_shows w (S (List.length (records self))) today ->
  int_amounts (records self) = true ->
  nonneg_amounts (records self) = true ->
  exists a b,
    value (get_today_stats self w) = Ok (Py.PInt a)
    /\ value (get_week_stats self w) = Ok (Py.PInt b)
    /\ 0 <= a <= b.
Proof.
  intros C I N.
  exists (total (filter (dated today) (records self))),
         (total (filter (in_week today) (records self))).
  destruct (clock_shows_next _ _ _ C) as [T _].
  split; [|split].
  - unfold get_today_stats.
    rewrite (today_loop_value _ _ w today) by (apply clock_shows_fewer with (2 := C); lia).
    apply py_sum_from_ints, int_amounts_filter, I.
  - rewrite get_week_stats_value, T. apply py_sum_from_ints, int_amounts_filter, I.
  - apply total_day_le_week, N.
Qed.

Lemma today_within_week_witness :
  exists a b,
    value (get_today_stats
             (add_record (spent_today 1000 [300; 500]) (dated_record 70 (mkdate 2024 3 4)))
             (steady march10))
    = Ok (Py.PInt a)
    /\ value (get_week_stats
                (add_record (spent_today 1000 [300; 500])
                   (dated_record 70 (mkdate 2024 3 4)))
                (steady march10))
       = Ok (Py.PInt b)
    /\ 0 <= a <= b.
Proof.
  exact (today_within_week
           (add_record (spent_today 1000 [300; 500]) (dated_record 70 (mkdate 2024 3 4)))
           (steady march10) march10 (steady_shows march10 4) eq_refl eq_refl).
Defined.

Lemma float_of_int_error z e : Py.float_of_int z = Err e -> e = OverflowError.
Proof.
  unfold Py.float_of_int.
  destruct (binary_normalize Py.prec Py.emax z 0 false); intros H; inversion H; reflexivity.
Qed.

Lemma float_binop_error op x y e :
  Py.float_binop op x y = Err e -> e = OverflowError.
Proof.
  unfold Py.float_binop, Py.to_double.
  destruct x as [a|f], y as [b|g]; cbn [rbind].
  - destruct (Py.float_of_int a) eqn:A; cbn [rbind];
      [destruct (Py.float_of_int b) eqn:B; cbn [rbind];
         [discriminate | intros H; inversion H; subst; apply (float_of_int_error b e B)]
      | intros H; inversion H; subst; apply (float_of_int_error a e A)].
  - destruct (Py.float_of_int a) eqn:A; cbn [rbind];
      [discriminate | intros H; inversion H; subst; apply (float_of_int_error a e A)].
  - destruct (Py.float_of_int b) eqn:B; cbn [rbind];
      [discriminate | intros H; inversion H; subst; apply (float_of_int_error b e B)].
  - discriminate.
Qed.

Lemma add_error x y e : Py.add x y = Err e -> e = OverflowError.
Proof.
  destruct x as [a|f], y as [b|g]; cbn [Py.add];
    try apply float_binop_error. discriminate.
Qed.

Lemma sub_error x y e : Py.sub x y = Err e -> e = OverflowError.
Proof.
  destruct x as [a|f], y as [b|g]; cbn [Py.sub];
    try apply float_binop_error. discriminate.
Qed.

Lemma py_sum_from_error xs :
  forall acc e, py_sum_from acc xs = Err e -> e = OverflowError.
Proof.
  induction xs as [|x xs IH]; intros acc e; cbn [py_sum_from]; [discriminate|].
  destruct (Py.add acc x) as [s|e'] eqn:A; cbn [rbind].
  - apply IH.
  - intros H; inversion H; subst. apply (add_error _ _ _ A).
Qed.

Lemma py_sum_from_floats rs :
  forall acc,
    float_amounts rs = true -> is_float acc = true \/ acc = Py.PInt 0 ->
    is_ok (py_sum_from acc (map amount rs)) = true.
Proof.
  induction rs as [|r rs IH]; intros acc H A; [reflexivity|].
  cbn [float_amounts forallb] in H. apply andb_true_iff in H. destruct H as [Hr Hrs].
  cbn [map py_sum_from].
  destruct (amount r) as [z|g]; [discriminate|].
  destruct A as [A| ->].
  - destruct acc as [a|f]; [discriminate|]. cbn [Py.add Py.float_binop Py.to_double rbind].
    apply IH; [exact Hrs | left; reflexivity].
  - cbn [Py.add Py.float_binop Py.to_double rbind].
    change (Py.float_of_int 0) with (Ok (S754_zero false) : result Py.float).
    cbn [rbind]. apply IH; [exact Hrs | left; reflexivity].
Qed.

Lemma float_amounts_filter f rs :
  float_amounts rs = true -> float_amounts (filter f rs) = true.
Proof.
  induction rs as [|r rs IH]; [reflexivity|].
  cbn [float_amounts forallb filter]. intros H. apply andb_true_iff in H.
  destruct H as [Hr Hrs]. destruct (f r); [|apply IH, Hrs].
  cbn [forallb]. rewrite Hr. apply IH, Hrs.
Qed.

Lemma float_amounts_counted clk rs :
  forall n, float_amounts rs = true -> float_amounts (counted clk n rs) = true.
Proof.
  induction rs as [|r rs IH]; intros n; [reflexivity|].
  cbn [float_amounts forallb counted]. intros H. apply andb_true_iff in H.
  destruct H as [Hr Hrs].
  destruct (date_eqb (date r) (date_of (clk n))); [|apply IH, Hrs].
  cbn [float_amounts forallb]. rewrite Hr. apply IH, Hrs.
Qed.

(** The only exception the two sums and the subtraction from the limit can
    raise is [OverflowError], that of an [int] too large to be added to a
    [float]: with amounts that are all [float]s nothing is raised, while an
    [int] of 401 digits followed by a [float] does raise. *)
Theorem stats_raise_only_overflow (self : Calculator) (w : world) :
  (forall e, value (get_week_stats self w) = Err e -> e = OverflowError)
  /\ (forall e, value (get_today_stats self w) = Err e -> e = OverflowError)
  /\ (forall e, remaining self w = Err e -> e = OverflowError)
  /\ (float_amounts (records self) = true ->
      is_ok (value (get_week_stats self w)) = true
      /\ is_ok (value (get_today_stats self w)) = true)
  /\ value (get_week_stats
              (mkCalculator (limit self)
                 [dated_record (10 ^ 400) march10; tenths 15])
              (steady march10))
     = Err OverflowError.
Proof.
  assert (T : forall e, value (get_today_stats self w) = Err e -> e = OverflowError).
  { intros e. unfold get_today_stats. rewrite today_loop_counted. apply py_sum_from_error. }
  split; [|split; [exact T|split; [|split]]].
  - intros e. rewrite get_week_stats_value. apply py_sum_from_error.
  - intros e. unfold remaining.
    destruct (value (get_today_stats self w)) as [s|e'] eqn:V; cbn [rbind].
    + apply sub_error.
    + intros H; inversion H; subst. apply T. reflexivity.
  - intros F. split.
    + rewrite get_week_stats_value. apply py_sum_from_floats;
        [apply float_amounts_filter, F | right; reflexivity].
    + unfold get_today_stats. rewrite today_loop_counted. apply py_sum_from_floats;
        [apply float_amounts_counted, F | right; reflexivity].
  - rewrite get_week_stats_value. vm_compute. reflexivity.
Qed.

(** ** [Record]: which date texts are taken *)

Lemma match_year_rest y rest :
  0 <= y <= 9999 ->
  match_fmt [Directive Dir_Y] (four_digits y ++ rest)%string
  = Some ([(Dir_Y, four_digits y)], rest).
Proof.
  intros H. destruct (year_digits y H) as (Ha & Hb & Hc & Hd & _).
  unfold four_digits. cbn [String.append]. rewrite match_fmt_directive.
  cbn [alternatives try_alternatives match_classes].
  rewrite (digit_digit_char _ _ Ha), (digit_digit_char _ _ Hb),
    (digit_digit_char _ _ Hc), (digit_digit_char _ _ Hd).
  reflexivity.
Qed.

(** The pattern on a text [DD.MM.YYYY] and what follows it: the three
    groups, and what follows left over. *)
Lemma match_fmt_text d m y rest :
  1 <= d <= 31 -> 1 <= m <= 12 -> 0 <= y <= 9999 ->
  match_fmt fmt_dmY (text_dmY (mkdate y m d) ++ rest)%string
  = Some ([(Dir_d, two_digits d); (Dir_m, two_digits m); (Dir_Y, four_digits y)], rest).
Proof.
  intros Hd Hm Hy. unfold fmt_dmY.
  change (text_dmY (mkdate y m d) ++ rest)%string
    with (two_digits d
          ++ String "." (two_digits m ++ String "." (four_digits y ++ rest)))%string.
  rewrite (match_day _ _ _ Hd), (match_month _ _ _ Hm), (match_year_rest _ _ Hy).
  reflexivity.
Qed.

Lemma strptime_fields d m y :
  1 <= d <= 31 -> 1 <= m <= 12 -> 0 <= y <= 9999 ->
  strptime (text_dmY (mkdate y m d)) fmt_dmY = new_datetime y m d.
Proof.
  intros Hd Hm Hy. unfold strptime.
  pose proof (match_fmt_text d m y EmptyString Hd Hm Hy) as E.
  replace (text_dmY (mkdate y m d) ++ "")%string with (text_dmY (mkdate y m d)) in E
    by (unfold text_dmY, two_digits, four_digits; reflexivity).
  rewrite E. unfold group. cbn [find fst snd directive_eqb].
  rewrite !int_of_two_digits, int_of_four_digits by lia. reflexivity.
Qed.

(** A text [DD.MM.YYYY] whose day is within 01..31, month within 01..12 and
    year within 0000..9999 is taken exactly when it names a day of the
    calendar: then the record gets that date; otherwise (the 31st of a
    month of 30 days, the 29th of February outside a leap year, the year
    0000) the construction raises [ValueError].  The clock is not read. *)
Theorem Record_calendar_check
    (amount : Py.num) (comment : string) (w : world) (d m y : Z) :
  1 <= d <= 31 -> 1 <= m <= 12 -> 0 <= y <= 9999 ->
  Record_new amount comment (Some (text_dmY (mkdate y m d))) w
  = if valid_date (mkdate y m d)
    then Return (mkRecord amount (mkdate y m d) comment) w
    else Raise ValueError w.
Proof.
  intros Hd Hm Hy. unfold Record_new, Record_init.
  assert (T : truthy (text_dmY (mkdate y m d)) = true) by reflexivity.
  rewrite T. cbn [negb]. unfold bind at 1. unfold bind at 1.
  rewrite (strptime_fields d m y Hd Hm Hy).
  unfold new_datetime, new_date, rmap, rbind, lift.
  destruct (valid_date (mkdate y m d)); reflexivity.
Qed.

Lemma Record_calendar_check_witness :
  Record_new (Py.PInt 145) "кофе" (Some (text_dmY (mkdate 2024 2 29))) (steady march10)
  = Return (mkRecord (Py.PInt 145) (mkdate 2024 2 29) "кофе") (steady march10)
  /\ Record_new (Py.PInt 145) "кофе" (Some (text_dmY (mkdate 2023 2 29))) (steady march10)
     = Raise ValueError (steady march10)
  /\ Record_new (Py.PInt 145) "кофе" (Some (text_dmY (mkdate 2024 4 31))) (steady march10)
     = Raise ValueError (steady march10).
Proof.
  split; [|split].
  - exact (Record_calendar_check (Py.PInt 145) "кофе" (steady march10) 29 2 2024
             ltac:(lia) ltac:(lia) ltac:(lia)).
  - exact (Record_calendar_check (Py.PInt 145) "кофе" (steady march10) 29 2 2023
             ltac:(lia) ltac:(lia) ltac:(lia)).
  - exact (Record_calendar_check (Py.PInt 145) "кофе" (steady march10) 31 4 2024
             ltac:(lia) ltac:(lia) ltac:(lia)).
Defined.

(** Nothing may follow the date: a text [DD.MM.YYYY] with anything after
    it, be it a blank, a time or a fifth digit of the year, makes the
    construction raise [ValueError]. *)
Theorem Record_trailing_text
    (amount : Py.num) (comment : string) (w : world) (d m y : Z) (rest : string) :
  1 <= d <= 31 -> 1 <= m <= 12 -> 0 <= y <= 9999 -> rest <> EmptyString ->
  Record_new amount comment (Some (text_dmY (mkdate y m d) ++ rest)%string) w
  = Raise ValueError w.
Proof.
  intros Hd Hm Hy Hr. unfold Record_new, Record_init.
  assert (T : truthy (text_dmY (mkdate y m d) ++ rest) = true) by reflexivity.
  rewrite T. cbn [negb]. unfold bind at 1. unfold bind at 1.
  unfold strptime. rewrite (match_fmt_text d m y rest Hd Hm Hy).
  destruct rest as [|c rest']; [elim Hr; reflexivity | reflexivity].
Qed.

Lemma Record_trailing_text_witness :
  Record_new (Py.PInt 145) "кофе" (Some "08.03.2024 10:30"%string) (steady march10)
  = Raise ValueError (steady march10)
  /\ Record_new (Py.PInt 145) "кофе" (Some "08.03.20245"%string) (steady march10)
     = Raise ValueError (steady march10).
Proof.
  split.
  - exact (Record_trailing_text (Py.PInt 145) "кофе" (steady march10) 8 3 2024
             " 10:30" ltac:(lia) ltac:(lia) ltac:(lia) ltac:(discriminate)).
  - exact (Record_trailing_text (Py.PInt 145) "кофе" (steady march10) 8 3 2024
             "5" ltac:(lia) ltac:(lia) ltac:(lia) ltac:(discriminate)).
Defined.

Ltac show_decimal n :=
  let v := eval vm_compute in (Py.decimal n) in
  change (Py.decimal n) with v.

Lemma day_group_unpadded (A : Type) (k : string -> string -> option A) d rest :
  1 <= d <= 31 ->
  (forall txt c r, c <> "."%char -> k txt (String c r) = None) ->
  try_alternatives k (alternatives Dir_d) (Py.decimal d ++ String "." rest)%string
  = k (Py.decimal d) (String "." rest).
Proof.
  intros H K.
  each_day d H;
    match goal with |- context [Py.decimal ?n] => show_decimal n end;
    vm_compute;
    repeat match goal with
           | |- context [k ?t (String ?c ?r)] => rewrite (K t c r) by discriminate
           end;
    match goal with |- context [k ?t ?r] => destruct (k t r) end; reflexivity.
Qed.

Lemma month_group_unpadded (A : Type) (k : string -> string -> option A) m rest :
  1 <= m <= 12 ->
  (forall txt c r, c <> "."%char -> k txt (String c r) = None) ->
  try_alternatives k (alternatives Dir_m) (Py.decimal m ++ String "." rest)%string
  = k (Py.decimal m) (String "." rest).
Proof.
  intros H K.
  each_month m H;
    match goal with |- context [Py.decimal ?n] => show_decimal n end;
    vm_compute;
    repeat match goal with
           | |- context [k ?t (String ?c ?r)] => rewrite (K t c r) by discriminate
           end;
    match goal with |- context [k ?t ?r] => destruct (k t r) end; reflexivity.
Qed.

Lemma int_of_decimal n :
  1 <= n <= 31 ->
  int_of_text (String.length (Py.decimal n)) 0 (Py.decimal n) = n.
Proof. intros H. each_day n H; reflexivity. Qed.

Lemma match_day_unpadded d fmt' rest :
  1 <= d <= 31 ->
  match_fmt (Directive Dir_d :: Literal "." :: fmt')
            (Py.decimal d ++ String "." rest)%string
  = match match_fmt fmt' rest with
    | Some (groups, tl) => Some ((Dir_d, Py.decimal d) :: groups, tl)
    | None => None
    end.
Proof.
  intros H. rewrite match_fmt_directive.
  rewrite day_group_unpadded; [reflexivity | exact H |].
  intros txt c r Hc.
  apply (literal_point_next _ fmt'
           (fun g => let '(groups, tl) := g in Some ((Dir_d, txt) :: groups, tl))).
  exact Hc.
Qed.

Lemma match_month_unpadded m fmt' rest :
  1 <= m <= 12 ->
  match_fmt (Directive Dir_m :: Literal "." :: fmt')
            (Py.decimal m ++ String "." rest)%string
  = match match_fmt fmt' rest with
    | Some (groups, tl) => Some ((Dir_m, Py.decimal m) :: groups, tl)
    | None => None
    end.
Proof.
  intros H. rewrite match_fmt_directive.
  rewrite month_group_unpadded; [reflexivity | exact H |].
  intros txt c r Hc.
  apply (literal_point_next _ fmt'
           (fun g => let '(groups, tl) := g in Some ((Dir_m, txt) :: groups, tl))).
  exact Hc.
Qed.

Lemma strptime_text_unpadded d :
  valid_date d = true ->
  strptime (text_unpadded d) fmt_dmY = Ok (mkdatetime d 0 0 0 0).
Proof.
  intros V. destruct (valid_date_bounds d V) as (Hy & Hm & Hd).
  unfold strptime, text_unpadded, fmt_dmY.
  change ("." ++ Py.decimal (month d) ++ "." ++ four_digits (year d))%string
    with (String "." (Py.decimal (month d) ++ String "." (four_digits (year d))))%string.
  rewrite (match_day_unpadded _ _ _ Hd), (match_month_unpadded _ _ _ Hm), match_year
    by lia.
  unfold group. cbn [find fst snd directive_eqb].
  rewrite !int_of_decimal, int_of_four_digits by lia.
  unfold new_datetime, new_date.
  destruct d as [y m a]. simpl in V |- *. rewrite V. reflexivity.
Qed.

(** The day and the month need no leading zero: the text [D.M.YYYY] of a
    day of the calendar, as [8.3.2024], gives a record of that day, the
    same as [08.03.2024] does. *)
Theorem Record_date_unpadded
    (amount : Py.num) (comment : string) (w : world) (d : Datetime.date) :
  valid_date d = true ->
  Record_new amount comment (Some (text_unpadded d)) w
  = Return (mkRecord amount d comment) w
  /\ Record_new amount comment (Some (text_unpadded d)) w
     = Record_new amount comment (Some (text_dmY d)) w.
Proof.
  intros V.
  assert (E : Record_new amount comment (Some (text_unpadded d)) w
              = Return (mkRecord amount d comment) w).
  { unfold Record_new, Record_init.
    assert (T : truthy (text_unpadded d) = true).
    { destruct (valid_date_bounds d V) as (_ & _ & Hd).
      destruct d as [y m a]. cbv [day] in Hd. unfold text_unpadded. cbv [day].
      each_day a Hd; reflexivity. }
    rewrite T. cbn [negb]. unfold bind at 1. unfold bind at 1.
    rewrite (strptime_text_unpadded d V). reflexivity. }
  split; [exact E|]. rewrite E. symmetry.
  unfold Record_new, Record_init, bind, lift.
  rewrite (strptime_text_dmY d V). reflexivity.
Qed.

Lemma Record_date_unpadded_witness :
  Record_new (Py.PInt 145) "кофе" (Some "8.3.2024"%string) (steady march10)
  = Return (mkRecord (Py.PInt 145) (mkdate 2024 3 8) "кофе") (steady march10)
  /\ Record_new (Py.PInt 145) "кофе" (Some "8.3.2024"%string) (steady march10)
     = Record_new (Py.PInt 145) "кофе" (Some "08.03.2024"%string) (steady march10).
Proof.
  exact (Record_date_unpadded (Py.PInt 145) "кофе" (steady march10) (mkdate 2024 3 8)
           eq_refl).
Defined.

(** ** The reports at the edges of the numbers *)

Lemma calories_value self w :
  value (get_calories_remained self w)
  = rbind (remaining self w) (fun x =>
    if Py.gt x zero then
      rmap (fun t =>
              ("Сегодня можно съесть что-нибудь ещё, но с общей калорийностью не более "
               ++ t ++ " кКал")%string)
           (Py.str x)
    else Ok "Хватит есть!"%string).
Proof.
  unfold get_calories_remained, remaining. rewrite value_bind.
  destruct (get_today_stats self w) as [stats w'|e w']; cbn [value rbind];
    [|reflexivity].
  rewrite value_bind. unfold lift at 1.
  destruct (Py.sub (limit self) stats) as [x|e]; [|reflexivity].
  cbn [rbind]. fold zero. destruct (Py.gt x zero); [|reflexivity].
  unfold bind, lift, rmap, rbind. destruct (Py.str x); reflexivity.
Qed.



(** The limit on the digits of an [int] put into text reaches both
    reports: when [limit - get_today_stats()] is an [int] of more than 4300
    digits above zero, [get_calories_remained] raises [ValueError], and so
    does [get_today_cash_remained] for every currency it does not convert. *)
Theorem reports_digit_limit
    (self : Calculator) (w : world) (z : Z) (currency : string)
    (usd_rate euro_rate : Py.num) :
  remaining self w = Ok (Py.PInt z) -> 10 ^ Py.max_str_digits <= z ->
  currency <> "usd"%string -> currency <> "eur"%string ->
  value (get_calories_remained self w) = Err ValueError
  /\ value (get_today_cash_remained self currency usd_rate euro_rate w)
     = Err ValueError.
Proof.
  intros Hr Hz Hu He.
  assert (P : 0 < 10 ^ Py.max_str_digits)
    by (apply Z.pow_pos_nonneg; [reflexivity | discriminate]).
  remember (10 ^ Py.max_str_digits) as big eqn:Hbig.
  assert (S : Py.str (Py.PInt z) = Err ValueError).
  { unfold Py.str, Py.str_int. rewrite too_long_spec, <- Hbig.
    replace (big <=? Z.abs z) with true; [reflexivity|].
    symmetry. apply Z.leb_le. lia. }
  assert (G : Py.gt (Py.PInt z) zero = true).
  { unfold Py.gt, zero. cbn [Py.compare].
    replace (z ?= 0) with Gt; [reflexivity|].
    symmetry. apply Z.compare_gt_iff. lia. }
  clear Hbig.
  split.
  - rewrite calories_value, Hr. cbn [rbind]. rewrite G, S. reflexivity.
  - rewrite (cash_unconverted self currency _ usd_rate euro_rate w
               (neq_eqb_false _ _ Hu) (neq_eqb_false _ _ He) eq_refl).
    rewrite Hr. cbn [rbind]. unfold cash_message. rewrite G.
    cbn [Py.round2]. rewrite S. reflexivity.
Qed.

Lemma reports_digit_limit_witness :
  value (get_calories_remained (Calculator_init (Py.PInt (10 ^ Py.max_str_digits)))
           (steady march10))
  = Err ValueError
  /\ value (get_today_cash_remained (Calculator_init (Py.PInt (10 ^ Py.max_str_digits)))
              "rub" USD_RATE EURO_RATE (steady march10))
     = Err ValueError.
Proof.
  apply (reports_digit_limit (Calculator_init (Py.PInt (10 ^ Py.max_str_digits)))
           (steady march10) (10 ^ Py.max_str_digits) "rub" USD_RATE EURO_RATE).
  - vm_compute. reflexivity.
  - apply Z.le_refl.
  - discriminate.
  - discriminate.
Defined.

(** ** Integers that are floats exactly *)

Lemma iter_xO p k : Z.pos (Pos.iter xO p k) = Z.pos p * 2 ^ Z.pos k.
Proof.
  induction k as [|k IH] using Pos.peano_ind.
  - cbn [Pos.iter]. change (Z.pos p~0) with (2 * Z.pos p). lia.
  - rewrite Pos.iter_succ.
    change (Z.pos (Pos.iter xO p k)~0) with (2 * Z.pos (Pos.iter xO p k)).
    rewrite IH, Pos2Z.inj_succ, Z.pow_succ_r by lia. lia.
Qed.

Lemma Zdigits2_shift m k :
  0 < m -> 0 <= k -> Zdigits2 (m * 2 ^ k) = Zdigits2 m + k.
Proof.
  intros Hm Hk. destruct (Zdigits2_bounds m Hm) as [[L U] D].
  assert (P : 0 < 2 ^ k) by (apply pow2_pos; exact Hk).
  assert (A : Zdigits2 (m * 2 ^ k) <= Zdigits2 m + k).
  { apply Zdigits2_le; [nia | lia |]. rewrite Z.pow_add_r by lia. nia. }
  assert (B : Zdigits2 m + k - 1 < Zdigits2 (m * 2 ^ k)).
  { apply Zdigits2_gt; [lia|].
    replace (Zdigits2 m + k - 1) with (Zdigits2 m - 1 + k) by lia.
    rewrite Z.pow_add_r by lia. nia. }
  lia.
Qed.

(** A mantissa that needs no shift and no rounding stays as it is. *)
Lemma binary_round_aux_exact s m e :
  fexp64 (Zdigits2 (Z.pos m) + e) <= e -> e <= 971 ->
  binary_round_aux Py.prec Py.emax s (Z.pos m) e loc_Exact = S754_finite s m e.
Proof.
  intros F E. unfold binary_round_aux, shr_fexp. rewrite !fexp_eq.
  rewrite shr_unchanged by lia.
  rewrite loc_of_record_of_loc, shr_m_of_loc. cbn [round_nearest_even].
  rewrite fexp_eq, shr_unchanged by lia.
  rewrite shr_m_of_loc.
  replace (e <=? Py.emax - Py.prec) with true; [reflexivity|].
  symmetry. apply Z.leb_le. unfold Py.emax, Py.prec. lia.
Qed.

(** An integer below [2^53] in size is a float exactly: its mantissa, of 53
    digits, is the integer shifted left. *)
Lemma binary_round_small s p :
  Z.pos p < 2 ^ 53 ->
  exists m e,
    binary_round Py.prec Py.emax s p 0 = S754_finite s m e
    /\ -52 <= e <= 0
    /\ Z.pos m = Z.pos p * 2 ^ (- e)
    /\ Zdigits2 (Z.pos m) = 53.
Proof.
  intros H. rewrite binary_normalize_int. cbv zeta.
  set (d := Z.pos (digits2_pos p)).
  assert (D : 1 <= d <= 53).
  { split; [subst d; lia|]. apply (Zdigits2_le (Z.pos p) 53); lia. }
  assert (F : fexp64 d = d - 53) by (unfold fexp64; lia).
  rewrite F. unfold shl_align.
  destruct (d - 53 - 0) as [|k|k] eqn:K; cbn [fst snd]; try lia.
  - exists p, 0. assert (d = 53) by lia.
    split; [|split; [lia|split; [cbn; lia | assumption]]].
    apply binary_round_aux_exact; [|lia].
    change (Zdigits2 (Z.pos p)) with d. unfold fexp64. lia.
  - exists (Pos.iter xO p k), (d - 53).
    assert (S : Zdigits2 (Z.pos (Pos.iter xO p k)) = 53).
    { rewrite iter_xO, Zdigits2_shift by lia. change (Zdigits2 (Z.pos p)) with d. lia. }
    split; [|split; [lia|split; [|exact S]]].
    + apply binary_round_aux_exact; [|lia]. rewrite S. unfold fexp64. lia.
    + rewrite iter_xO. do 2 f_equal. lia.
Qed.

Lemma div_half_even_exact a d : 0 < d -> Py.div_half_even (a * d) d = a.
Proof.
  intros H. unfold Py.div_half_even.
  rewrite Z.div_mul, Z.mod_mul by lia.
  assert (C : (2 * 0 ?= d) = Lt) by (apply Z.compare_lt_iff; lia).
  rewrite C. reflexivity.
Qed.

Lemma hundredths_exact m e n :
  e <= 0 -> Z.pos m = n * 2 ^ (- e) -> Py.hundredths m e = n * 100.
Proof.
  intros He Hm. unfold Py.hundredths, Py.frac_of.
  assert (P : 0 < 2 ^ (- e)) by (apply pow2_pos; lia).
  destruct (0 <=? e) eqn:E.
  - apply Z.leb_le in E. assert (e = 0) by lia. subst e.
    change (2 ^ (- 0)) with 1 in Hm. change (2 ^ 0) with 1.
    rewrite Hm. replace (n * 1 * 1 * 100) with (n * 100 * 1) by lia.
    apply div_half_even_exact. lia.
  - rewrite Hm. replace (n * 2 ^ (- e) * 100) with (n * 100 * 2 ^ (- e)) by lia.
    apply div_half_even_exact. exact P.
Qed.

(** The [.2f] format on an integer above zero and below [2^53]: its
    decimal text and [.00]. *)
Lemma format_2f_int z :
  0 < z < 2 ^ 53 -> Py.format_2f (Py.PInt z) = Ok (Py.decimal z ++ ".00")%string.
Proof.
  intros H. destruct z as [|p|p]; try lia.
  destruct (binary_round_small false p (proj2 H)) as (m & e & B & He & Hm & _).
  unfold Py.format_2f, Py.to_double, Py.float_of_int, binary_normalize.
  rewrite B. cbn [rmap rbind Py.format_2f_float].
  rewrite (hundredths_exact m e (Z.pos p)) by (lia || exact Hm).
  rewrite Z.div_mul, Z.mod_mul by lia. reflexivity.
Qed.

Lemma append_assoc (a b c : string) : ((a ++ b) ++ c = a ++ (b ++ c))%string.
Proof. induction a as [|x a IH]; [reflexivity|]. cbn [String.append]. rewrite IH. reflexivity. Qed.

Lemma str_int_small z : Z.abs z < 2 ^ 53 -> Py.str (Py.PInt z) = Ok (Py.decimal z).
Proof.
  intros H. unfold Py.str, Py.str_int, Py.too_long.
  replace (14283 <=? Z.log2 (Z.abs z)) with false; [reflexivity|].
  symmetry. apply Z.leb_gt.
  destruct (Z.eq_dec (Z.abs z) 0) as [->|N]; [reflexivity|].
  apply Z.lt_trans with 53; [|lia]. apply Z.log2_lt_pow2; lia.
Qed.

(** Whole amounts in the currencies that are not converted: when
    [limit - get_today_stats()] is an [int] below [2^53] in size, money
    left is shown as the integer itself, without decimals, and a debt as
    the integer followed by [.00]. *)
Theorem get_today_cash_remained_whole
    (self : Calculator) (w : world) (z : Z) (currency : string)
    (usd_rate euro_rate : Py.num) :
  remaining self w = Ok (Py.PInt z) -> Z.abs z < 2 ^ 53 ->
  currency <> "usd"%string -> currency <> "eur"%string ->
  let label := (if String.eqb currency "rub" then "руб" else currency)%string in
  value (get_today_cash_remained self currency usd_rate euro_rate w)
  = Ok (Some (if 0 <? z then
                ("На сегодня осталось " ++ Py.decimal z ++ " " ++ label)%string
              else if z =? 0 then "Денег нет, держись"%string
              else ("Денег нет, держись: твой долг - " ++ Py.decimal (- z) ++ ".00"
                    ++ " " ++ label)%string)).
Proof.
  intros Hr Hz Hu He label.
  rewrite (cash_unconverted self currency label usd_rate euro_rate w
             (neq_eqb_false _ _ Hu) (neq_eqb_false _ _ He) eq_refl).
  rewrite Hr. cbn [rbind]. unfold cash_message, Py.gt, Py.eq, Py.lt, zero.
  cbn [Py.compare].
  destruct (Z.compare_spec z 0) as [E|L|G].
  - subst z. reflexivity.
  - replace (0 <? z) with false by (symmetry; apply Z.ltb_ge; lia).
    replace (z =? 0) with false by (symmetry; apply Z.eqb_neq; lia).
    cbn [py_abs]. rewrite format_2f_int by lia.
    replace (Z.abs z) with (- z) by lia. cbn [rmap rbind].
    rewrite append_assoc. reflexivity.
  - replace (0 <? z) with true by (symmetry; apply Z.ltb_lt; lia).
    cbn [Py.round2]. rewrite str_int_small by exact Hz. reflexivity.
Qed.

Lemma get_today_cash_remained_whole_witness :
  value (get_today_cash_remained (spent_today 1000 [1200]) "rub" USD_RATE EURO_RATE
           (steady march10))
  = Ok (Some "Денег нет, держись: твой долг - 200.00 руб"%string)
  /\ value (get_today_cash_remained (spent_today 1000 [800]) "rub" USD_RATE EURO_RATE
              (steady march10))
     = Ok (Some "На сегодня осталось 200 руб"%string).
Proof.
  split.
  - exact (get_today_cash_remained_whole (spent_today 1000 [1200]) (steady march10)
             (-200) "rub" USD_RATE EURO_RATE eq_refl eq_refl
             ltac:(discriminate) ltac:(discriminate)).
  - exact (get_today_cash_remained_whole (spent_today 1000 [800]) (steady march10)
             200 "rub" USD_RATE EURO_RATE eq_refl eq_refl
             ltac:(discriminate) ltac:(discriminate)).
Defined.

(** ** Conversion of a whole balance *)










(** ** The week window on the calendar *)

Lemma next_day_step d :
  valid_date d = true ->
  toordinal (next_day d) = toordinal d + 1
  /\ (valid_date (next_day d) = true \/ MAXYEAR < year (next_day d)).
Proof.
  destruct d as [y m a]. unfold valid_date, next_day, toordinal, ymd2ord, MINYEAR, MAXYEAR.
  cbv [year month day].
  rewrite !andb_true_iff, !Z.leb_le.
  intros [[[[[Y1 Y2] L] U] A] B].
  destruct (a <? days_in_month y m) eqn:E1; cbv [year month day].
  - apply Z.ltb_lt in E1. split; [lia|]. left.
    rewrite ?andb_true_iff, ?Z.leb_le. lia.
  - apply Z.ltb_ge in E1. assert (Ea : a = days_in_month y m) by lia.
    destruct (m <? 12) eqn:E2; cbv [year month day].
    + apply Z.ltb_lt in E2. split.
      * subst a. unfold days_before_month, days_in_month.
        each_month m (conj L U); try lia; destruct (is_leap y); simpl; lia.
      * left. rewrite ?andb_true_iff, ?Z.leb_le.
        assert (1 <= days_in_month y (m + 1)).
        { unfold days_in_month.
          each_month m (conj L U); try lia; destruct (is_leap y); simpl; lia. }
        lia.
    + apply Z.ltb_ge in E2. assert (m = 12) by lia. subst m.
      split.
      * rewrite days_before_year_succ. subst a.
        unfold days_before_month, days_in_month. destruct (is_leap y); simpl; lia.
      * destruct (Z.eq_dec y 9999) as [->|Ny]; [right; lia|left].
        rewrite ?andb_true_iff, ?Z.leb_le.
        change (days_in_month (y + 1) 1) with 31. lia.
Qed.

Lemma next_day_year d : year d <= year (next_day d).
Proof.
  unfold next_day.
  destruct (day d <? days_in_month (year d) (month d)); [cbn; lia|].
  destruct (month d <? 12); cbn; lia.
Qed.

Lemma days_later_ordinal k d :
  valid_date d = true ->
  (valid_date (days_later k d) = true
   /\ toordinal (days_later k d) = toordinal d + Z.of_nat k)
  \/ MAXYEAR < year (days_later k d).
Proof.
  intros V. induction k as [|k IH].
  - left. split; [exact V | cbn; lia].
  - cbn [days_later]. destruct IH as [[Vk Ok]|Big].
    + destruct (next_day_step _ Vk) as [O [V'|B]]; [left|right; exact B].
      split; [exact V'|]. rewrite O, Ok. lia.
    + right. pose proof (next_day_year (days_later k d)). lia.
Qed.

(** The window of [get_week_stats] is seven days of the calendar: a record
    dated [k] days before the day the clock shows, months, years and leap
    days in between counted as the calendar has them, is added to the sum
    for [k] from 0 to 6 and for no other [k]. *)
Theorem week_window_calendar
    (self : Calculator) (r : PyRecord) (w : world) (k : nat) :
  valid_date (date r) = true ->
  date_of (clock w (reads w)) = days_later k (date r) ->
  valid_date (date_of (clock w (reads w))) = true ->
  value (get_week_stats (add_record self r) w)
  = rbind (value (get_week_stats self w))
      (fun s => if (k <? 7)%nat then Py.add s (amount r) else Ok s).
Proof.
  intros Vr T Vt.
  rewrite !get_week_stats_value. cbn [add_record records].
  rewrite filter_snoc, py_sum_snoc_if.
  assert (W : in_week (date_of (clock w (reads w))) r = (k <? 7)%nat).
  { unfold in_week, days_between. rewrite T in Vt |- *.
    destruct (days_later_ordinal k (date r) Vr) as [[_ O]|Big].
    - rewrite O.
      replace (toordinal (date r) + Z.of_nat k - toordinal (date r)) with (Z.of_nat k)
        by lia.
      replace (0 <=? Z.of_nat k) with true by (symmetry; apply Z.leb_le; lia).
      cbn [andb]. destruct (Nat.ltb_spec k 7).
      + apply Z.ltb_lt. lia.
      + apply Z.ltb_ge. lia.
    - unfold valid_date, MAXYEAR in Vt, Big.
      rewrite !andb_true_iff, !Z.leb_le in Vt. lia. }
  rewrite W. reflexivity.
Qed.

Lemma week_window_calendar_witness :
  value (get_week_stats
           (add_record (spent_today 1000 [300]) (dated_record 70 (mkdate 2024 2 27)))
           (steady (mkdate 2024 3 4)))
  = Ok (Py.PInt 70)
  /\ value (get_week_stats
              (add_record (spent_today 1000 [300]) (dated_record 70 (mkdate 2024 2 26)))
              (steady (mkdate 2024 3 4)))
     = Ok (Py.PInt 0).
Proof.
  split.
  - exact (week_window_calendar (spent_today 1000 [300])
             (dated_record 70 (mkdate 2024 2 27)) (steady (mkdate 2024 3 4)) 6
             eq_refl eq_refl eq_refl).
  - exact (week_window_calendar (spent_today 1000 [300])
             (dated_record 70 (mkdate 2024 2 26)) (steady (mkdate 2024 3 4)) 7
             eq_refl eq_refl eq_refl).
Defined.

(** ** A record made now *)

(** A record made without a date counts at once: with the clock on one
    day throughout, the sums taken right after adding it are the sums over
    the records that were there, of that day or of that week, plus its
    amount. *)
Theorem new_record_counts
    (self : Calculator) (amount0 : Py.num) (comment0 : string) (w : world)
    (today : Datetime.date) :
  clock_shows w (S (S (List.length (records self)))) today ->
  value ((r <- Record_new amount0 comment0 None ;;
          get_today_stats (add_record self r)) w)
  = rbind (py_sum (map amount (filter (dated today) (records self))))
      (fun s => Py.add s amount0)
  /\ value ((r <- Record_new amount0 comment0 None ;;
             get_week_stats (add_record self r)) w)
     = rbind (py_sum (map amount (filter (in_week today) (records self))))
         (fun s => Py.add s amount0).
Proof.
  intros C. destruct (clock_shows_next _ _ _ C) as [T0 C1].
  destruct (clock_shows_next _ _ _ C1) as [T1 _].
  set (w1 := mkworld (clock w) (S (reads w))) in *.
  assert (R : Record_new amount0 comment0 None w
              = Return (mkRecord amount0 today comment0) w1)
    by (rewrite <- T0; reflexivity).
  split.
  - rewrite value_bind, R. unfold get_today_stats. cbn [add_record records].
    rewrite (today_loop_value _ _ w1 today)
      by (rewrite length_app, Nat.add_1_r; exact C1).
    rewrite filter_snoc. unfold dated at 2. cbn [date]. rewrite date_eqb_refl.
    fold (py_sum (map amount (filter (dated today) (records self) ++ [mkRecord amount0 today comment0]))).
    apply (py_sum_snoc_if true).
  - rewrite value_bind, R. rewrite get_week_stats_value. cbn [add_record records].
    rewrite T1, filter_snoc.
    assert (W : in_week today (mkRecord amount0 today comment0) = true)
      by (apply dated_in_week; unfold dated; apply date_eqb_refl).
    rewrite W. apply (py_sum_snoc_if true).
Qed.

Lemma new_record_counts_witness :
  value ((r <- Record_new (Py.PInt 145) "кофе" None ;;
          get_today_stats (add_record (spent_today 1000 [300; 500]) r))
           (steady march10))
  = Ok (Py.PInt 945)
  /\ value ((r <- Record_new (Py.PInt 145) "кофе" None ;;
             get_week_stats (add_record (spent_today 1000 [300; 500]) r))
              (steady march10))
     = Ok (Py.PInt 945).
Proof.
  exact (new_record_counts (spent_today 1000 [300; 500]) (Py.PInt 145) "кофе"
           (steady march10) march10 (steady_shows march10 4)).
Defined.

(** ** The text of a debt *)

Lemma two_digit_text c :
  0 <= c < 100 ->
  ((if (c <? 10)%Z then "0" else "") ++ Py.decimal c)%string = two_digits c.
Proof.
  intros H.
  assert (A : forallb
                (fun n => String.eqb
                            ((if (Z.of_nat n <? 10)%Z then "0" else "")
                             ++ Py.decimal (Z.of_nat n))%string
                            (two_digits (Z.of_nat n)))
                (seq 0 100) = true) by (vm_compute; reflexivity).
  rewrite forallb_forall in A.
  specialize (A (Z.to_nat c)). rewrite Z2Nat.id in A by lia.
  apply String.eqb_eq, A, in_seq. lia.
Qed.

Lemma hundredths_bounds m e : 0 <= Py.hundredths m e.
Proof.
  unfold Py.hundredths, Py.frac_of.
  assert (G : forall n d, 0 <= n -> 0 < d -> 0 <= Py.div_half_even n d).
  { intros n d Hn Hd. unfold Py.div_half_even.
    assert (0 <= n / d) by (apply Z.div_pos; lia).
    destruct (2 * (n mod d) ?= d); [destruct (Z.even (n / d))| |]; lia. }
  destruct (0 <=? e) eqn:E.
  - apply Z.leb_le in E. apply G; [|lia].
    assert (0 < 2 ^ e) by (apply pow2_pos; lia). nia.
  - apply Z.leb_gt in E. apply G; [lia|]. apply pow2_pos. lia.
Qed.

Lemma debt_message m e label :
  exists i f,
    0 <= i /\ 0 <= f < 100
    /\ cash_message (Py.PFloat (S754_finite true m e)) label
       = Ok (Some ("Денег нет, держись: твой долг - " ++ Py.decimal i ++ "."
                   ++ two_digits f ++ " " ++ label)%string).
Proof.
  exists (Py.hundredths m e / 100), (Py.hundredths m e mod 100).
  pose proof (hundredths_bounds m e) as H.
  split; [apply Z.div_pos; lia|]. split; [apply Z.mod_pos_bound; lia|].
  unfold cash_message, Py.gt, Py.eq, Py.lt, zero, Py.compare.
  rewrite cmp_zero_finite. cbn [option_map CompOpp py_abs SFabs].
  unfold Py.format_2f. cbn [Py.to_double rmap rbind Py.format_2f_float Py.sign_text].
  rewrite <- (two_digit_text (Py.hundredths m e mod 100))
    by (apply Z.mod_pos_bound; lia).
  repeat first [rewrite append_assoc | progress cbn [String.append]]. reflexivity.
Qed.

(** A debt that is a finite float is shown without a sign and with
    exactly two decimals: the text after [твой долг - ] is an integer not
    below zero, a point and two digits, in the currencies that are not
    converted and, when the quotient is such a float, in the converted
    ones. *)
Theorem get_today_cash_remained_debt_text
    (self : Calculator) (w : world) (r : Py.num) (m : positive) (e : Z)
    (currency : string) (usd_rate euro_rate : Py.num) :
  remaining self w = Ok r ->
  (r = Py.PFloat (S754_finite true m e) ->
   currency <> "usd"%string -> currency <> "eur"%string ->
   exists i f,
     0 <= i /\ 0 <= f < 100
     /\ value (get_today_cash_remained self currency usd_rate euro_rate w)
        = Ok (Some ("Денег нет, держись: твой долг - " ++ Py.decimal i ++ "."
                    ++ two_digits f ++ " "
                    ++ (if String.eqb currency "rub" then "руб" else currency))%string))
  /\ (Py.truediv r usd_rate = Ok (Py.PFloat (S754_finite true m e)) ->
      exists i f,
        0 <= i /\ 0 <= f < 100
        /\ value (get_today_cash_remained self "usd" usd_rate euro_rate w)
           = Ok (Some ("Денег нет, держись: твой долг - " ++ Py.decimal i ++ "."
                       ++ two_digits f ++ " USD")%string)).
Proof.
  intros Hr. split.
  - intros -> Hu He.
    rewrite (cash_unconverted self currency _ usd_rate euro_rate w
               (neq_eqb_false _ _ Hu) (neq_eqb_false _ _ He) eq_refl), Hr.
    cbn [rbind]. apply debt_message.
  - intros Hv. rewrite cash_usd, Hr. cbn [rbind]. rewrite Hv. cbn [rbind].
    apply debt_message.
Qed.

Lemma get_today_cash_remained_debt_text_witness :
  exists i f,
    0 <= i /\ 0 <= f < 100
    /\ value (get_today_cash_remained (Calculator_init minus_two_and_a_half) "rub"
                USD_RATE EURO_RATE (steady march10))
       = Ok (Some ("Денег нет, держись: твой долг - " ++ Py.decimal i ++ "."
                   ++ two_digits f ++ " " ++ "руб")%string).
Proof.
  exact (proj1 (get_today_cash_remained_debt_text
                  (Calculator_init minus_two_and_a_half) (steady march10)
                  minus_two_and_a_half 5629499534213120 (-51) "rub" USD_RATE EURO_RATE
                  eq_refl)
           eq_refl ltac:(discriminate) ltac:(discriminate)).
Defined.
